(** * Moderation queue, editing locks and intake priorities of BotAICurator

    A shallow embedding of
      - [services/moderation_service.py]: [SmartReminder],
        [ModerationMessage], [ModerationQueue];
      - [admin_bot.py]: the edit / clear callbacks of [AdminHandlers] and the
        editing-timeout monitor of [AdminBot];
      - [handlers.py]: [PriorityMessageQueue].

    Conventions of the embedding.
      - Clock readings ([time.time()], [datetime.now()]) are explicit [now]
        arguments.  Both kinds of reading are counts of seconds, taken in [Z];
        [datetime.timestamp()] is then the identity.
      - A Python [dict] is an insertion-ordered association list ([pydict]);
        where only membership and lookup are used it is a [gmap].
      - Objects stored in a dict are mutated in place by the source; the
        embedding writes the changed record back under the same key.
      - Telegram calls (sending, editing, answering) carry no queue state and
        are left out; what a handler tells the reviewer is its outcome value. *)

From Stdlib Require Import ZArith Ascii String DecimalString DecimalZ DecimalPos
  Sorting.Sorted.
From stdpp Require Import base option list strings gmap.

Set Warnings "-register-all".

Local Open Scope string_scope.
Local Open Scope list_scope.
Local Open Scope Z_scope.

(** ** Insertion-ordered dictionaries *)

Module PyDict.
Section Dict.
Context {V : Type}.

Definition pydict := list (string * V).

(** [d.get(k)] *)
Fixpoint get (k : string) (d : pydict) : option V :=
  match d with
  | [] => None
  | (k', v) :: d' => if String.eqb k' k then Some v else get k d'
  end.

(** [k in d] *)
Definition mem (k : string) (d : pydict) : bool :=
  match get k d with Some _ => true | None => false end.

(** [d[k] = v]: an existing key keeps its position, a new one goes last. *)
Fixpoint set (k : string) (v : V) (d : pydict) : pydict :=
  match d with
  | [] => [(k, v)]
  | (k', v') :: d' =>
      if String.eqb k' k then (k, v) :: d' else (k', v') :: set k v d'
  end.

(** the dictionary left by [d.pop(k)] *)
Fixpoint remove (k : string) (d : pydict) : pydict :=
  match d with
  | [] => []
  | (k', v') :: d' =>
      if String.eqb k' k then remove k d' else (k', v') :: remove k d'
  end.

Definition keys (d : pydict) : list string := map fst d.
Definition values (d : pydict) : list V := map snd d.

End Dict.
Arguments pydict : clear implicits.
End PyDict.


(** ** JSON values

    What [json.dump] writes and [json.load] reads back.  Numbers are the
    integers of the embedding (see the conventions on time above). *)

Inductive json : Type :=
  | JNull
  | JBool (b : bool)
  | JNum (z : Z)
  | JStr (s : string)
  | JArr (l : list json)
  | JObj (o : list (string * json)).

(** Python truthiness of a decoded JSON value, as in [if data.get(k):]. *)
Definition truthy (j : json) : bool :=
  match j with
  | JNull => false
  | JBool b => b
  | JNum z => negb (Z.eqb z 0)
  | JStr s => negb (String.eqb s "")
  | JArr l => match l with [] => false | _ => true end
  | JObj o => match o with [] => false | _ => true end
  end.

(** ** The text of a datetime

    [datetime.isoformat] and [datetime.fromisoformat] are library functions;
    the source relies on the second undoing the first.  A datetime being a
    count of seconds here, its text is the decimal numeral of that count. *)

Definition isoformat (d : Z) : string := NilZero.string_of_int (Z.to_int d).

Definition fromisoformat (s : string) : option Z :=
  match NilZero.int_of_string s with
  | Some i => Some (Z.of_int i)
  | None => None
  end.

(** ** Text helpers (admin_bot.py) *)







(** The characters [escape_markdown_v2] escapes. *)
Definition escape_chars : list ascii :=
  [ "_"; "*"; "["; "]"; "("; ")"; "~"; "`"; ">"; "#"; "+"; "-"; "=";
    "|"; "{"; "}"; "."; "!" ]%char.

Definition is_escape_char (c : ascii) : bool :=
  existsb (Ascii.eqb c) escape_chars.

(** [escape_markdown_v2]: a backslash goes before each of those characters
    (the empty text gives the empty text). *)
Fixpoint escape_markdown_v2 (text : string) : string :=
  match text with
  | EmptyString => EmptyString
  | String c rest =>
      if is_escape_char c
      then String "\"%char (String c (escape_markdown_v2 rest))
      else String c (escape_markdown_v2 rest)
  end.



(** ** [ModerationMessage] (services/moderation_service.py)

    The dataclass, field for field.  The two lock representations of the
    source are both here: [admin_processing] / [admin_name] / [status]
    (set by [lock_for_editing]) and [editing_admin_id] /
    [editing_admin_name] / [editing_started_at] (set by the callbacks). *)

Record ModerationMessage : Type := mkMessage {
  message_id : string;
  chat_id : Z;
  user_id : Z;
  username : string;
  original_message : string;
  ai_response : string;
  timestamp : Z;
  chat_title : option string;
  original_message_id : option Z;
  status : string;
  rejection_reason : option string;
  moderated_at : option Z;
  expires_at : option Z;
  retry_count : Z;
  last_notification : option Z;
  admin_processing : option Z;
  admin_name : option string;
  editing_admin_id : option Z;
  editing_admin_name : option string;
  editing_started_at : option Z;
  reminder_count : Z;
  last_reminder_time : option Z
}.

(** Attribute assignments [msg.f = v], one function per group of attributes
    the source assigns together. *)

Definition set_status (s : string) (m : ModerationMessage) : ModerationMessage :=
  mkMessage (message_id m) (chat_id m) (user_id m) (username m)
    (original_message m) (ai_response m) (timestamp m) (chat_title m)
    (original_message_id m) s (rejection_reason m) (moderated_at m)
    (expires_at m) (retry_count m) (last_notification m) (admin_processing m)
    (admin_name m) (editing_admin_id m) (editing_admin_name m)
    (editing_started_at m) (reminder_count m) (last_reminder_time m).

Definition set_rejection_reason (r : option string) (m : ModerationMessage)
  : ModerationMessage :=
  mkMessage (message_id m) (chat_id m) (user_id m) (username m)
    (original_message m) (ai_response m) (timestamp m) (chat_title m)
    (original_message_id m) (status m) r (moderated_at m)
    (expires_at m) (retry_count m) (last_notification m) (admin_processing m)
    (admin_name m) (editing_admin_id m) (editing_admin_name m)
    (editing_started_at m) (reminder_count m) (last_reminder_time m).

Definition set_moderated_at (t : option Z) (m : ModerationMessage)
  : ModerationMessage :=
  mkMessage (message_id m) (chat_id m) (user_id m) (username m)
    (original_message m) (ai_response m) (timestamp m) (chat_title m)
    (original_message_id m) (status m) (rejection_reason m) t
    (expires_at m) (retry_count m) (last_notification m) (admin_processing m)
    (admin_name m) (editing_admin_id m) (editing_admin_name m)
    (editing_started_at m) (reminder_count m) (last_reminder_time m).

Definition set_admin_processing (a : option Z) (n : option string)
    (m : ModerationMessage) : ModerationMessage :=
  mkMessage (message_id m) (chat_id m) (user_id m) (username m)
    (original_message m) (ai_response m) (timestamp m) (chat_title m)
    (original_message_id m) (status m) (rejection_reason m) (moderated_at m)
    (expires_at m) (retry_count m) (last_notification m) a
    n (editing_admin_id m) (editing_admin_name m)
    (editing_started_at m) (reminder_count m) (last_reminder_time m).

Definition set_editing (a : option Z) (n : option string) (t : option Z)
    (m : ModerationMessage) : ModerationMessage :=
  mkMessage (message_id m) (chat_id m) (user_id m) (username m)
    (original_message m) (ai_response m) (timestamp m) (chat_title m)
    (original_message_id m) (status m) (rejection_reason m) (moderated_at m)
    (expires_at m) (retry_count m) (last_notification m) (admin_processing m)
    (admin_name m) a n t (reminder_count m) (last_reminder_time m).

Definition set_reminder (c : Z) (t : option Z) (m : ModerationMessage)
  : ModerationMessage :=
  mkMessage (message_id m) (chat_id m) (user_id m) (username m)
    (original_message m) (ai_response m) (timestamp m) (chat_title m)
    (original_message_id m) (status m) (rejection_reason m) (moderated_at m)
    (expires_at m) (retry_count m) (last_notification m) (admin_processing m)
    (admin_name m) (editing_admin_id m) (editing_admin_name m)
    (editing_started_at m) c t.

Definition set_expires_at (e : option Z) (m : ModerationMessage)
  : ModerationMessage :=
  mkMessage (message_id m) (chat_id m) (user_id m) (username m)
    (original_message m) (ai_response m) (timestamp m) (chat_title m)
    (original_message_id m) (status m) (rejection_reason m) (moderated_at m)
    e (retry_count m) (last_notification m) (admin_processing m)
    (admin_name m) (editing_admin_id m) (editing_admin_name m)
    (editing_started_at m) (reminder_count m) (last_reminder_time m).

(** [ModerationMessage.is_expired] *)
Definition is_expired (now : Z) (m : ModerationMessage) : bool :=
  match expires_at m with
  | Some e => now >? e
  | None => false
  end.

(** [ModerationMessage.lock_for_editing] *)
Definition lock_for_editing (admin_id : Z) (name : string)
    (m : ModerationMessage) : ModerationMessage :=
  set_status "processing" (set_admin_processing (Some admin_id) (Some name) m).

(** [ModerationMessage.unlock_editing] *)
Definition unlock_editing (m : ModerationMessage) : ModerationMessage :=
  set_status "pending" (set_admin_processing None None m).

(** [ModerationMessage.is_locked] *)
Definition is_locked (m : ModerationMessage) : bool :=
  match admin_processing m with Some _ => true | None => false end.

(** Truthiness of an optional integer attribute, as in
    [if message.editing_admin_id:] ([None] and [0] are false). *)
Definition truthy_id (o : option Z) : bool :=
  match o with
  | Some a => negb (Z.eqb a 0)
  | None => false
  end.

(** *** Serialisation: [to_dict] and [from_dict] *)

Definition json_of_str (o : option string) : json :=
  match o with Some s => JStr s | None => JNull end.

Definition json_of_num (o : option Z) : json :=
  match o with Some z => JNum z | None => JNull end.

(** [asdict] leaves a datetime in place and [to_dict] replaces it by its
    text when it is set (a datetime is always true). *)
Definition json_of_datetime (o : option Z) : json :=
  match o with Some d => JStr (isoformat d) | None => JNull end.

(** [ModerationMessage.to_dict]: the keys come in the order of the fields. *)
Definition to_dict (m : ModerationMessage) : PyDict.pydict json :=
  [ ("message_id", JStr (message_id m));
    ("chat_id", JNum (chat_id m));
    ("user_id", JNum (user_id m));
    ("username", JStr (username m));
    ("original_message", JStr (original_message m));
    ("ai_response", JStr (ai_response m));
    ("timestamp", JStr (isoformat (timestamp m)));
    ("chat_title", json_of_str (chat_title m));
    ("original_message_id", json_of_num (original_message_id m));
    ("status", JStr (status m));
    ("rejection_reason", json_of_str (rejection_reason m));
    ("moderated_at", json_of_datetime (moderated_at m));
    ("expires_at", json_of_datetime (expires_at m));
    ("retry_count", JNum (retry_count m));
    ("last_notification", json_of_datetime (last_notification m));
    ("admin_processing", json_of_num (admin_processing m));
    ("admin_name", json_of_str (admin_name m));
    ("editing_admin_id", json_of_num (editing_admin_id m));
    ("editing_admin_name", json_of_str (editing_admin_name m));
    ("editing_started_at", json_of_num (editing_started_at m));
    ("reminder_count", JNum (reminder_count m));
    ("last_reminder_time", json_of_num (last_reminder_time m)) ].

(** The parameters of the dataclass constructor: [cls], called on the
    unpacked [data], raises on a key that is not one of them. *)
Definition field_names : list string :=
  [ "message_id"; "chat_id"; "user_id"; "username"; "original_message";
    "ai_response"; "timestamp"; "chat_title"; "original_message_id";
    "status"; "rejection_reason"; "moderated_at"; "expires_at";
    "retry_count"; "last_notification"; "admin_processing"; "admin_name";
    "editing_admin_id"; "editing_admin_name"; "editing_started_at";
    "reminder_count"; "last_reminder_time" ].

Definition known_field (k : string) : bool := existsb (String.eqb k) field_names.

(** Readers of one constructor argument.  [None] is an exception of the
    source (a missing required key, a value [fromisoformat] refuses) or a
    value the typed record cannot hold (Python would keep, say, a string in
    an integer attribute). *)

(** a required string argument *)
Definition arg_str (k : string) (data : PyDict.pydict json) : option string :=
  match PyDict.get k data with
  | Some (JStr s) => Some s
  | _ => None
  end.

(** a required integer argument *)
Definition arg_num (k : string) (data : PyDict.pydict json) : option Z :=
  match PyDict.get k data with
  | Some (JNum z) => Some z
  | _ => None
  end.

(** an integer argument with a default (by [setdefault] or by the dataclass) *)
Definition arg_num_default (k : string) (dflt : Z) (data : PyDict.pydict json)
  : option Z :=
  match PyDict.get k data with
  | None => Some dflt
  | Some (JNum z) => Some z
  | Some _ => None
  end.

(** a string argument with a default *)
Definition arg_str_default (k : string) (dflt : string)
    (data : PyDict.pydict json) : option string :=
  match PyDict.get k data with
  | None => Some dflt
  | Some (JStr s) => Some s
  | Some _ => None
  end.

(** an [Optional[str]] argument, [None] when the key is missing *)
Definition arg_opt_str (k : string) (data : PyDict.pydict json)
  : option (option string) :=
  match PyDict.get k data with
  | None | Some JNull => Some None
  | Some (JStr s) => Some (Some s)
  | Some _ => None
  end.

(** an [Optional[int]] / [Optional[float]] argument *)
Definition arg_opt_num (k : string) (data : PyDict.pydict json)
  : option (option Z) :=
  match PyDict.get k data with
  | None | Some JNull => Some None
  | Some (JNum z) => Some (Some z)
  | Some _ => None
  end.

(** [data['timestamp'] = datetime.fromisoformat(data['timestamp'])] *)
Definition arg_datetime (k : string) (data : PyDict.pydict json) : option Z :=
  match PyDict.get k data with
  | Some (JStr s) => fromisoformat s
  | _ => None
  end.

(** [if data.get(k): data[k] = datetime.fromisoformat(data[k])] *)
Definition arg_opt_datetime (k : string) (data : PyDict.pydict json)
  : option (option Z) :=
  match PyDict.get k data with
  | None => Some None
  | Some j =>
      if truthy j then
        match j with
        | JStr s => Some <$> fromisoformat s
        | _ => None
        end
      else
        match j with
        | JNull => Some None
        | _ => None
        end
  end.

(** [ModerationMessage.from_dict] *)
Definition from_dict (data : PyDict.pydict json) : option ModerationMessage :=
  ts ← arg_datetime "timestamp" data;
  mod_at ← arg_opt_datetime "moderated_at" data;
  exp_at ← arg_opt_datetime "expires_at" data;
  last_n ← arg_opt_datetime "last_notification" data;
  retry ← arg_num_default "retry_count" 0 data;
  adm ← arg_opt_num "admin_processing" data;
  adm_name ← arg_opt_str "admin_name" data;
  ed_id ← arg_opt_num "editing_admin_id" data;
  ed_name ← arg_opt_str "editing_admin_name" data;
  ed_at ← arg_opt_num "editing_started_at" data;
  title ← arg_opt_str "chat_title" data;
  rem_count ← arg_num_default "reminder_count" 0 data;
  rem_time ← arg_opt_num "last_reminder_time" data;
  (* the constructor call on the unpacked dictionary *)
  guard (forallb known_field (PyDict.keys data) = true);;
  mid ← arg_str "message_id" data;
  cid ← arg_num "chat_id" data;
  uid ← arg_num "user_id" data;
  uname ← arg_str "username" data;
  orig ← arg_str "original_message" data;
  resp ← arg_str "ai_response" data;
  orig_id ← arg_opt_num "original_message_id" data;
  st ← arg_str_default "status" "pending" data;
  reason ← arg_opt_str "rejection_reason" data;
  Some (mkMessage mid cid uid uname orig resp ts title orig_id st reason
          mod_at exp_at retry last_n adm adm_name ed_id ed_name ed_at
          rem_count rem_time).

(** The fields of the dataclass that have no default. *)
Definition required_names : list string :=
  [ "message_id"; "chat_id"; "user_id"; "username"; "original_message";
    "ai_response"; "timestamp" ].

(** The fields of the dataclass that have a default. *)
Definition optional_names : list string :=
  [ "chat_title"; "original_message_id"; "status"; "rejection_reason";
    "moderated_at"; "expires_at"; "retry_count"; "last_notification";
    "admin_processing"; "admin_name"; "editing_admin_id";
    "editing_admin_name"; "editing_started_at"; "reminder_count";
    "last_reminder_time" ].

(** [k in ids] for a list of names. *)
Definition id_in (ids : list string) (k : string) : bool :=
  existsb (String.eqb k) ids.

(** A stored record from which the keys [ks] are missing, as in a snapshot
    written before those fields existed. *)
Definition without_keys (ks : list string) (data : PyDict.pydict json)
  : PyDict.pydict json :=
  List.filter (λ kv, negb (id_in ks (fst kv))) data.

(** The record with the fields named in [ks] at their defaults. *)
Definition with_defaults (ks : list string) (m : ModerationMessage)
  : ModerationMessage :=
  let dflt {A} (k : string) (d v : A) : A := if id_in ks k then d else v in
  mkMessage (message_id m) (chat_id m) (user_id m) (username m)
    (original_message m) (ai_response m) (timestamp m)
    (dflt "chat_title" None (chat_title m))
    (dflt "original_message_id" None (original_message_id m))
    (dflt "status" "pending" (status m))
    (dflt "rejection_reason" None (rejection_reason m))
    (dflt "moderated_at" None (moderated_at m))
    (dflt "expires_at" None (expires_at m))
    (dflt "retry_count" 0 (retry_count m))
    (dflt "last_notification" None (last_notification m))
    (dflt "admin_processing" None (admin_processing m))
    (dflt "admin_name" None (admin_name m))
    (dflt "editing_admin_id" None (editing_admin_id m))
    (dflt "editing_admin_name" None (editing_admin_name m))
    (dflt "editing_started_at" None (editing_started_at m))
    (dflt "reminder_count" 0 (reminder_count m))
    (dflt "last_reminder_time" None (last_reminder_time m)).

(** ** [ModerationQueue] (services/moderation_service.py)

    The file-backed queue ([use_database] is [False], the default of the
    shared instance).  The storage file and its backups are part of the
    state: [storage_file] is the decoded content of [moderation_queue.json]
    ([None] when the file does not exist); [backups] are the
    [*.backup.<stamp>] files in the order of their names, each with the
    second of its stamp. *)

Record ModerationQueue : Type := mkQueue {
  pending_messages : PyDict.pydict ModerationMessage;
  approved_messages : list ModerationMessage;
  rejected_messages : list ModerationMessage;
  default_timeout : Z;
  storage_file : option json;
  backups : list (Z * json)
}.

Definition set_records (p : PyDict.pydict ModerationMessage)
    (a r : list ModerationMessage) (q : ModerationQueue) : ModerationQueue :=
  mkQueue p a r (default_timeout q) (storage_file q) (backups q).

Definition set_pending (p : PyDict.pydict ModerationMessage)
    (q : ModerationQueue) : ModerationQueue :=
  set_records p (approved_messages q) (rejected_messages q) q.

Definition set_storage_file (f : option json) (q : ModerationQueue)
  : ModerationQueue :=
  mkQueue (pending_messages q) (approved_messages q) (rejected_messages q)
    (default_timeout q) f (backups q).

Definition set_backups (b : list (Z * json)) (q : ModerationQueue)
  : ModerationQueue :=
  mkQueue (pending_messages q) (approved_messages q) (rejected_messages q)
    (default_timeout q) (storage_file q) b.

(** [_initialize_empty_storage] *)
Definition _initialize_empty_storage (q : ModerationQueue) : ModerationQueue :=
  set_records [] [] [] q.

(** [_save_to_file]: the dictionary written through the temporary file. *)
Definition saved_data (now : Z) (q : ModerationQueue) : json :=
  JObj
    [ ("pending_messages",
        JObj (map (λ kv, (fst kv, JObj (to_dict (snd kv)))) (pending_messages q)));
      ("approved_messages",
        JArr (map (λ m, JObj (to_dict m)) (approved_messages q)));
      ("rejected_messages",
        JArr (map (λ m, JObj (to_dict m)) (rejected_messages q)));
      ("metadata",
        JObj
          [ ("last_saved", JStr (isoformat now));
            ("version", JStr "2.0");
            ("total_messages",
              JNum (Z.of_nat (length (pending_messages q)
                              + length (approved_messages q)
                              + length (rejected_messages q)))) ]) ].

Definition _save_to_file (now : Z) (q : ModerationQueue) : ModerationQueue :=
  set_storage_file (Some (saved_data now q)) q.

(** [_save_data] *)
Definition _save_data (now : Z) (q : ModerationQueue) : ModerationQueue :=
  _save_to_file now q.

(** [_validate_data_integrity] *)
Definition _validate_data_integrity (data : json) : bool :=
  match data with
  | JObj o =>
      match PyDict.get "pending_messages" o,
            PyDict.get "approved_messages" o,
            PyDict.get "rejected_messages" o with
      | Some (JObj _), Some (JArr _), Some (JArr _) => true
      | _, _, _ => false
      end
  | _ => false
  end.

(** [_recover_data] *)
Definition _recover_data : json :=
  JObj [ ("pending_messages", JObj []);
         ("approved_messages", JArr []);
         ("rejected_messages", JArr []) ].

(** A backup written in the second [stamp] replaces the one of the same
    name; the names sort like the stamps. *)
Fixpoint put_backup (stamp : Z) (content : json) (bs : list (Z * json))
  : list (Z * json) :=
  match bs with
  | [] => [(stamp, content)]
  | (s, c) :: bs' =>
      if stamp <? s then (stamp, content) :: (s, c) :: bs'
      else if stamp =? s then (stamp, content) :: bs'
      else (s, c) :: put_backup stamp content bs'
  end.

(** [_create_backup]: copy the file, keep the last five backups. *)
Definition _create_backup (now : Z) (q : ModerationQueue) : ModerationQueue :=
  match storage_file q with
  | Some content =>
      let bs := put_backup now content (backups q) in
      set_backups (drop (length bs - 5) bs) q
  | None => q
  end.

(** [ModerationMessage.from_dict] on one stored value. *)
Definition message_of_json (j : json) : option ModerationMessage :=
  match j with
  | JObj data => from_dict data
  | _ => None
  end.

(** [{msg_id: from_dict(msg_data) for msg_id, msg_data in ....items()}] *)
Fixpoint load_pending (items : list (string * json))
  : option (PyDict.pydict ModerationMessage) :=
  match items with
  | [] => Some []
  | (k, j) :: rest =>
      m ← message_of_json j;
      d ← load_pending rest;
      Some ((k, m) :: d)
  end.

(** [[from_dict(msg_data) for msg_data in ...]] *)
Fixpoint load_archive (items : list json) : option (list ModerationMessage) :=
  match items with
  | [] => Some []
  | j :: rest =>
      m ← message_of_json j;
      l ← load_archive rest;
      Some (m :: l)
  end.

(** The three assignments of [_load_from_file] (and of the recovery from a
    backup); [None] when one of the comprehensions raises.  [data.get] has
    defaults for the three keys. *)
Definition load_records (data : json)
  : option (PyDict.pydict ModerationMessage
            * list ModerationMessage * list ModerationMessage) :=
  match data with
  | JObj o =>
      p ← match PyDict.get "pending_messages" o with
          | None => Some []
          | Some (JObj items) => load_pending items
          | Some _ => None
          end;
      a ← match PyDict.get "approved_messages" o with
          | None => Some []
          | Some (JArr items) => load_archive items
          | Some _ => None
          end;
      r ← match PyDict.get "rejected_messages" o with
          | None => Some []
          | Some (JArr items) => load_archive items
          | Some _ => None
          end;
      Some (p, a, r)
  | _ => None
  end.

(** The loop of [_attempt_recovery_from_backup] over the backups it tries,
    newest first. *)
Fixpoint recover_from (candidates : list (Z * json)) (q : ModerationQueue)
  : ModerationQueue :=
  match candidates with
  | [] => _initialize_empty_storage q
  | (_, data) :: rest =>
      if _validate_data_integrity data then
        match load_records data with
        | Some (p, a, r) => set_records p a r q
        | None => recover_from rest q
        end
      else recover_from rest q
  end.

(** [_attempt_recovery_from_backup] *)
Definition _attempt_recovery_from_backup (q : ModerationQueue) : ModerationQueue :=
  recover_from (take 3 (reverse (backups q))) q.

(** [_load_from_file] *)
Definition _load_from_file (now : Z) (q : ModerationQueue) : ModerationQueue :=
  match storage_file q with
  | Some data =>
      let q1 := _create_backup now q in
      let data' := if _validate_data_integrity data then data else _recover_data in
      match load_records data' with
      | Some (p, a, r) => set_records p a r q1
      | None => _attempt_recovery_from_backup q1
      end
  | None => _initialize_empty_storage q
  end.

(** The status and decision time the expiry sweep gives a record. *)
Definition expire (now : Z) (m : ModerationMessage) : ModerationMessage :=
  set_moderated_at (Some now) (set_status "expired" m).

(** The second loop of [_cleanup_expired_messages]. *)
Fixpoint expire_ids (now : Z) (ids : list string) (q : ModerationQueue)
  : ModerationQueue :=
  match ids with
  | [] => q
  | msg_id :: rest =>
      match PyDict.get msg_id (pending_messages q) with
      | Some msg =>
          expire_ids now rest
            (set_records (PyDict.remove msg_id (pending_messages q))
               (approved_messages q)
               (rejected_messages q ++ [expire now msg]) q)
      | None => q
      end
  end.

(** The first loop of [_cleanup_expired_messages]. *)
Definition expired_ids (now : Z) (q : ModerationQueue) : list string :=
  map fst (List.filter (λ kv, is_expired now (snd kv)) (pending_messages q)).

(** [_cleanup_expired_messages] *)
Definition _cleanup_expired_messages (now : Z) (q : ModerationQueue)
  : ModerationQueue * Z :=
  let ids := expired_ids now q in
  let q' := expire_ids now ids q in
  let q'' := match ids with [] => q' | _ => _save_data now q' end in
  (q'', Z.of_nat (length ids)).

(** [_load_data] *)
Definition _load_data (now : Z) (q : ModerationQueue) : ModerationQueue :=
  fst (_cleanup_expired_messages now (_load_from_file now q)).

(** The [message_data] dictionary of [add_to_queue]; an absent optional key
    is [None]. *)
Record MessageData : Type := mkMessageData {
  md_chat_id : Z;
  md_user_id : Z;
  md_username : option string;
  md_original_message : string;
  md_ai_response : string;
  md_chat_title : option string;
  md_original_message_id : option Z
}.

(** [add_to_queue].  [uuid_text] is [str(uuid.uuid4())], the one value the
    function draws from outside. *)
Definition add_to_queue (md : MessageData) (timeout_hours : option Z)
    (uuid_text : string) (now : Z) (q : ModerationQueue)
  : ModerationQueue * string :=
  let message_id := String.substring 0 8 uuid_text in
  let timeout :=
    if truthy_id timeout_hours
    then 3600 * default 0 timeout_hours
    else default_timeout q in
  let moderation_message :=
    mkMessage message_id (md_chat_id md) (md_user_id md)
      (default "Unknown" (md_username md))
      (md_original_message md) (md_ai_response md) now
      (md_chat_title md) (md_original_message_id md)
      "pending" None None (Some (now + timeout)) 0 None None None
      None None None 0 None in
  (_save_data now
     (set_pending (PyDict.set message_id moderation_message (pending_messages q)) q),
   message_id).

(** The record [approve_message] archives. *)
Definition approved_at (now : Z) (m : ModerationMessage) : ModerationMessage :=
  set_moderated_at (Some now) (set_status "approved" m).

(** The record [reject_message] archives. *)
Definition rejected_at (now : Z) (reason : option string) (m : ModerationMessage)
  : ModerationMessage :=
  set_moderated_at (Some now) (set_rejection_reason reason (set_status "rejected" m)).

(** [get_from_queue] *)
Definition get_from_queue (message_id : string) (q : ModerationQueue)
  : option ModerationMessage :=
  PyDict.get message_id (pending_messages q).

(** [approve_message] *)
Definition approve_message (message_id : string) (now : Z) (q : ModerationQueue)
  : ModerationQueue * option ModerationMessage :=
  match PyDict.get message_id (pending_messages q) with
  | Some message =>
      let message' := approved_at now message in
      (_save_data now
         (set_records (PyDict.remove message_id (pending_messages q))
            (approved_messages q ++ [message']) (rejected_messages q) q),
       Some message')
  | None => (q, None)
  end.

(** [reject_message] *)
Definition reject_message (message_id : string) (reason : option string)
    (now : Z) (q : ModerationQueue)
  : ModerationQueue * option ModerationMessage :=
  match PyDict.get message_id (pending_messages q) with
  | Some message =>
      let message' := rejected_at now reason message in
      (_save_data now
         (set_records (PyDict.remove message_id (pending_messages q))
            (approved_messages q) (rejected_messages q ++ [message']) q),
       Some message')
  | None => (q, None)
  end.

(** [get_pending_count] *)
Definition get_pending_count (q : ModerationQueue) : Z :=
  Z.of_nat (length (pending_messages q)).

(** [clear_all_pending] *)
Definition clear_all_pending (q : ModerationQueue) : ModerationQueue * Z :=
  let cleared_count := Z.of_nat (length (pending_messages q)) in
  (set_storage_file None (set_pending [] q), cleared_count).

(** [get_overdue_messages] *)
Definition get_overdue_messages (hours now : Z) (q : ModerationQueue)
  : list ModerationMessage :=
  List.filter (λ msg, timestamp msg <? now - 3600 * hours)
    (PyDict.values (pending_messages q)).

(** [get_expiring_soon] *)
Definition get_expiring_soon (hours now : Z) (q : ModerationQueue)
  : list ModerationMessage :=
  List.filter
    (λ msg, match expires_at msg with
            | Some e => e <? now + 3600 * hours
            | None => false
            end)
    (PyDict.values (pending_messages q)).

(** [extend_timeout] *)
Definition extend_timeout (message_id : string) (additional_hours now : Z)
    (q : ModerationQueue) : ModerationQueue * bool :=
  match PyDict.get message_id (pending_messages q) with
  | Some msg =>
      match expires_at msg with
      | Some e =>
          (_save_data now
             (set_pending
                (PyDict.set message_id
                   (set_expires_at (Some (e + 3600 * additional_hours)) msg)
                   (pending_messages q)) q),
           true)
      | None => (q, false)
      end
  | None => (q, false)
  end.

(** The dictionary [get_statistics] returns. *)
Record Statistics : Type := mkStatistics {
  stat_pending : Z;
  stat_approved : Z;
  stat_rejected : Z;
  stat_overdue : Z;
  stat_expiring_soon : Z
}.

(** [get_statistics] *)
Definition get_statistics (now : Z) (q : ModerationQueue) : Statistics :=
  mkStatistics
    (Z.of_nat (length (pending_messages q)))
    (Z.of_nat (length (approved_messages q)))
    (Z.of_nat (length (rejected_messages q)))
    (Z.of_nat (length (get_overdue_messages 2 now q)))
    (Z.of_nat (length (get_expiring_soon 2 now q))).

(** ** [SmartReminder] (services/moderation_service.py) *)

(** [self.reminder_schedule] *)
Definition reminder_schedule : list (Z * Z) :=
  [ (1, 3600); (2, 7200); (3, 14400); (4, 28800) ].

(** [self.reminder_schedule.get(k, dflt)] *)
Fixpoint schedule_get (k dflt : Z) (sched : list (Z * Z)) : Z :=
  match sched with
  | [] => dflt
  | (k', v) :: rest => if k' =? k then v else schedule_get k dflt rest
  end.

(** [should_send_reminder] *)
Definition should_send_reminder (now : Z) (msg : ModerationMessage) : bool :=
  if truthy_id (editing_admin_id msg) then false
  else if reminder_count msg <? 4 then
    let next_reminder_time :=
      schedule_get (reminder_count msg + 1) 3600 reminder_schedule in
    let last_reminder_timestamp :=
      match last_reminder_time msg with
      | Some t => t
      | None => timestamp msg
      end in
    now - last_reminder_timestamp >=? next_reminder_time
  else false.

(** [format_queue_time]: the hours and minutes it prints, [int()] cutting
    towards zero and [%] taking the sign of 3600. *)
Definition format_queue_time (time_in_queue : Z) : Z * Z :=
  (Z.quot time_in_queue 3600, Z.quot (time_in_queue mod 3600) 60).

(** The least time a record has been in the queue when it gets reminder
    number [k]: the intervals of the schedule up to [k], added up. *)
Fixpoint waited_before (k : nat) : Z :=
  match k with
  | O => 0
  | S k' => waited_before k' + schedule_get (Z.of_nat k) 3600 reminder_schedule
  end.

(** What a pass of [_send_reminders] does to the counters of one record:
    [send_smart_reminder] advances them when [should_send_reminder] holds. *)
Definition remind_one (now : Z) (msg : ModerationMessage) : ModerationMessage :=
  if should_send_reminder now msg
  then set_reminder (reminder_count msg + 1) (Some now) msg
  else msg.

(** A record through successive passes at the given times: the record at
    the end and the number of passes that sent a reminder for it. *)
Fixpoint remind_over (times : list Z) (msg : ModerationMessage)
  : ModerationMessage * Z :=
  match times with
  | [] => (msg, 0)
  | now :: rest =>
      let (msg', n) := remind_over rest (remind_one now msg) in
      (msg', if should_send_reminder now msg then 1 + n else n)
  end.

Section Admins.

(** [Config.ADMIN_CHAT_IDS], each configured numeral read as the integer the
    source converts it to. *)
Variable ADMIN_CHAT_IDS : list Z.

(** [Config.is_admin] *)
Definition is_admin (user : Z) : bool :=
  existsb (Z.eqb user) ADMIN_CHAT_IDS.

(** The reviewers the loop of [send_smart_reminder] sends to: not the one
    who is editing, not one who has disabled reminders. *)
Definition reminder_recipients (disabled_reminders : gset Z)
    (msg : ModerationMessage) : list Z :=
  List.filter
    (λ admin_id,
       negb (truthy_id (editing_admin_id msg)
             && bool_decide (Some admin_id = editing_admin_id msg))
       && negb (bool_decide (admin_id ∈ disabled_reminders)))
    ADMIN_CHAT_IDS.

(** [send_smart_reminder]: the record with its counters advanced, the
    reviewers the reminder reached and the returned flag.  [reachable] tells
    for which reviewers [send_message] does not raise. *)
Definition send_smart_reminder (reachable : Z → bool)
    (disabled_reminders : gset Z) (now : Z) (msg : ModerationMessage)
  : ModerationMessage * list Z * bool :=
  let msg' := set_reminder (reminder_count msg + 1) (Some now) msg in
  let sent := List.filter reachable (reminder_recipients disabled_reminders msg') in
  (msg', sent, (0 <? Z.of_nat (length sent))).

(** The loop of [_send_reminders] over [pending_messages.values()]: the
    updated dictionary, the deliveries made (record id, reviewer) and the
    number of successful reminders. *)
Fixpoint remind_all (reachable : Z → bool) (disabled_reminders : gset Z)
    (now : Z) (items : list (string * ModerationMessage))
  : list (string * ModerationMessage) * list (string * Z) * Z :=
  match items with
  | [] => ([], [], 0)
  | (k, msg) :: rest =>
      let '(rest', deliveries, count) :=
        remind_all reachable disabled_reminders now rest in
      if should_send_reminder now msg then
        let '(msg', sent, success) :=
          send_smart_reminder reachable disabled_reminders now msg in
        ((k, msg') :: rest',
         map (λ a, (message_id msg, a)) sent ++ deliveries,
         if success then 1 + count else count)
      else ((k, msg) :: rest', deliveries, count)
  end.

(** [_send_reminders], with the admin bot attached. *)
Definition _send_reminders (reachable : Z → bool) (disabled_reminders : gset Z)
    (now : Z) (q : ModerationQueue) : ModerationQueue * list (string * Z) :=
  let '(p, deliveries, count) :=
    remind_all reachable disabled_reminders now (pending_messages q) in
  let q' := set_pending p q in
  (if 0 <? count then _save_data now q' else q', deliveries).

(** ** [AdminHandlers] and [AdminBot] (admin_bot.py) *)

(** An entry of [correction_states]. *)
Record Session : Type := mkSession {
  session_message_id : string;
  step : string
}.

(** The state the callbacks work on: the shared queue,
    [AdminHandlers.correction_states] and [AdminBot.disabled_reminders]. *)
Record AdminState : Type := mkAdminState {
  moderation_queue : ModerationQueue;
  correction_states : gmap Z Session;
  disabled_reminders : gset Z
}.

Definition set_queue (q : ModerationQueue) (st : AdminState) : AdminState :=
  mkAdminState q (correction_states st) (disabled_reminders st).

Definition set_correction_states (c : gmap Z Session) (st : AdminState)
  : AdminState :=
  mkAdminState (moderation_queue st) c (disabled_reminders st).

(** What [handle_edit_callback] shows the reviewer. *)
Inductive EditOutcome : Type :=
  | EditSessionActive (active_msg_id : string)
  | EditNotFound
  | EditDenied (owner_name : option string)
  | EditActivated
  | EditError.

(** The lock test of [handle_edit_callback] on the record found:
    [inl m'] carries on with the record [m'], [inr o] leaves with [o]. *)
Definition check_editing_lock (admin_user_id now : Z) (message : ModerationMessage)
  : ModerationMessage + EditOutcome :=
  if truthy_id (editing_admin_id message)
     && negb (bool_decide (editing_admin_id message = Some admin_user_id))
  then
    match editing_started_at message with
    | Some started =>
        if now - started <? 600
        then inr (EditDenied (editing_admin_name message))
        else inl (set_editing None None None message)
    | None => inr EditError
    end
  else inl message.

(** The record [handle_edit_callback] leaves in the queue when it grants
    the lock: both lock representations name the caller. *)
Definition acquired (admin_user_id : Z) (admin_username : string) (now : Z)
    (message : ModerationMessage) : ModerationMessage :=
  lock_for_editing admin_user_id admin_username
    (set_editing (Some admin_user_id) (Some admin_username) (Some now) message).

(** [handle_edit_callback] *)
Definition handle_edit_callback (admin_user_id : Z) (admin_username : string)
    (message_id : string) (now : Z) (st : AdminState)
  : AdminState * EditOutcome :=
  match correction_states st !! admin_user_id with
  | Some active => (st, EditSessionActive (session_message_id active))
  | None =>
      let q := _load_data now (moderation_queue st) in
      match get_from_queue message_id q with
      | None => (set_queue q st, EditNotFound)
      | Some message =>
          match check_editing_lock admin_user_id now message with
          | inr EditError =>
              (* the handler of the exception reloads the queue *)
              (set_queue (_load_data now q) st, EditError)
          | inr outcome => (set_queue q st, outcome)
          | inl message1 =>
              let message3 :=
                acquired admin_user_id admin_username now message1 in
              let q' :=
                _save_data now
                  (set_pending
                     (PyDict.set message_id message3 (pending_messages q)) q) in
              (set_correction_states
                 (<[admin_user_id := mkSession message_id "waiting_correction"]>
                    (correction_states st))
                 (set_queue q' st),
               EditActivated)
          end
      end
  end.

(** What [handle_cancel_edit_callback] shows the reviewer. *)
Inductive CancelOutcome : Type :=
  | CancelNotFound
  | CancelDone.

(** The two releases of [handle_cancel_edit_callback] on the record found:
    "System 1", then "System 2". *)
Definition release_by (admin_user_id : Z) (message : ModerationMessage)
  : ModerationMessage :=
  let message1 :=
    if bool_decide (editing_admin_id message = Some admin_user_id)
    then set_editing None None None message
    else message in
  if is_locked message1
     && bool_decide (admin_processing message1 = Some admin_user_id)
  then unlock_editing message1
  else message1.

(** [handle_cancel_edit_callback] *)
Definition handle_cancel_edit_callback (admin_user_id : Z) (message_id : string)
    (now : Z) (st : AdminState) : AdminState * CancelOutcome :=
  let states := delete admin_user_id (correction_states st) in
  let q := _load_data now (moderation_queue st) in
  match get_from_queue message_id q with
  | None => (set_correction_states states (set_queue q st), CancelNotFound)
  | Some message =>
      let q' :=
        _save_data now
          (set_pending
             (PyDict.set message_id (release_by admin_user_id message)
                (pending_messages q)) q) in
      (set_correction_states states (set_queue q' st), CancelDone)
  end.

(** One pass of the loop of [AdminBot.check_editing_timeouts] over the items
    of [get_pending_messages()].  The flag is [false] when the pass ends in
    the exception that stops the monitor. *)
Fixpoint release_expired_edits (now : Z)
    (items : list (string * ModerationMessage)) (q : ModerationQueue)
  : ModerationQueue * bool :=
  match items with
  | [] => (q, true)
  | (msg_id, message) :: rest =>
      if truthy_id (editing_admin_id message) then
        match editing_started_at message with
        | Some started =>
            if now - started >? 600 then
              release_expired_edits now rest
                (_save_data now
                   (set_pending
                      (PyDict.set msg_id (set_editing None None None message)
                         (pending_messages q)) q))
            else release_expired_edits now rest q
        | None => (q, false)
        end
      else release_expired_edits now rest q
  end.

(** [AdminBot.check_editing_timeouts], one wake-up. *)
Definition check_editing_timeouts (now : Z) (st : AdminState) : AdminState * bool :=
  let '(q, ok) :=
    release_expired_edits now (pending_messages (moderation_queue st))
      (moderation_queue st) in
  (set_queue q st, ok).

(** What [handle_clear_confirm_yes_callback] shows the reviewer. *)
Inductive ClearOutcome : Type :=
  | ClearNotAdmin
  | ClearAlreadyEmpty
  | ClearDone (cleared_count sessions_cleared : Z).

(** [handle_clear_confirm_yes_callback] *)
Definition handle_clear_confirm_yes_callback (admin_user_id : Z) (st : AdminState)
  : AdminState * ClearOutcome :=
  if negb (is_admin admin_user_id) then (st, ClearNotAdmin)
  else if get_pending_count (moderation_queue st) =? 0 then (st, ClearAlreadyEmpty)
  else
    let '(q, cleared_count) := clear_all_pending (moderation_queue st) in
    let sessions_cleared := Z.of_nat (size (correction_states st)) in
    (set_correction_states ∅ (set_queue q st),
     ClearDone cleared_count sessions_cleared).









Definition set_disabled_reminders (d : gset Z) (st : AdminState) : AdminState :=
  mkAdminState (moderation_queue st) (correction_states st) d.

(** [notification_off_command]; the flag tells whether the caller was
    accepted as a reviewer. *)
Definition notification_off_command (user : Z) (st : AdminState)
  : AdminState * bool :=
  if negb (is_admin user) then (st, false)
  else (set_disabled_reminders ({[user]} ∪ disabled_reminders st) st, true).

(** [notification_on_command] *)
Definition notification_on_command (user : Z) (st : AdminState)
  : AdminState * bool :=
  if negb (is_admin user) then (st, false)
  else (set_disabled_reminders (disabled_reminders st ∖ {[user]}) st, true).

End Admins.

(** ** [PriorityMessageQueue] (handlers.py) *)

Module Intake.

(** The [message_data] dictionary of the intake.  The Telegram [update] and
    [context] objects it carries are opaque to the queue: [update_id] stands
    for them, one pair of objects per update received. *)
Record IntakeData : Type := mkIntakeData {
  update_id : Z;
  intake_user_id : Z;
  message_text : string;
  submitted_at : Z
}.

#[global] Instance IntakeData_eq_dec : EqDecision IntakeData.
Proof. solve_decision. Defined.

(** The tuple [(priority, current_time, message_data)]. *)
Record Entry : Type := mkEntry {
  priority : Z;
  enqueued_at : Z;
  message_data : IntakeData
}.

(** What the calls of this part can raise. *)
Inductive Exception : Type := TypeError | ValueError | IndexError.

(** [a < b] on two queued tuples: the first components that differ decide.
    When priority and time agree the dictionaries are compared, and for two
    dictionaries that differ [<] raises [TypeError] ([None]). *)
Definition tuple_lt (a b : Entry) : option bool :=
  if negb (priority a =? priority b) then Some (priority a <? priority b)
  else if negb (enqueued_at a =? enqueued_at b)
       then Some (enqueued_at a <? enqueued_at b)
  else if bool_decide (message_data a = message_data b) then Some false
  else None.

(** [heapq]'s [siftdown(heap, startpos, pos)], as the interpreter's
    accelerated module has it: the item at [pos] is swapped with its parent
    as long as it is smaller.  A comparison that raises leaves the list as
    swapped so far.  The loop runs at most [pos] times, one unit of [fuel]
    each. *)
Fixpoint siftdown_loop (fuel : nat) (heap : list Entry) (startpos pos : nat)
  : list Entry * option Exception :=
  match fuel with
  | O => (heap, None)
  | S fuel' =>
      if bool_decide (startpos < pos)%nat then
        let parentpos := ((pos - 1) / 2)%nat in
        match heap !! pos, heap !! parentpos with
        | Some newitem, Some parent =>
            match tuple_lt newitem parent with
            | None => (heap, Some TypeError)
            | Some false => (heap, None)
            | Some true =>
                siftdown_loop fuel'
                  (<[pos := parent]> (<[parentpos := newitem]> heap))
                  startpos parentpos
            end
        | _, _ => (heap, Some IndexError)
        end
      else (heap, None)
  end.

Definition siftdown (heap : list Entry) (startpos pos : nat)
  : list Entry * option Exception :=
  if bool_decide (length heap ≤ pos)%nat then (heap, Some IndexError)
  else siftdown_loop pos heap startpos pos.

(** The first loop of [siftup(heap, pos)]: the smaller child is swapped up
    until [pos] has no child.  It ends within [len(heap)] rounds. *)
Fixpoint siftup_loop (fuel : nat) (heap : list Entry) (pos : nat)
  : list Entry * nat * option Exception :=
  match fuel with
  | O => (heap, pos, None)
  | S fuel' =>
      let endpos := length heap in
      if bool_decide (pos < endpos / 2)%nat then
        let childpos := (2 * pos + 1)%nat in
        let smaller :=
          if bool_decide (childpos + 1 < endpos)%nat then
            match heap !! childpos, heap !! (childpos + 1)%nat with
            | Some a, Some b =>
                match tuple_lt a b with
                | None => inr TypeError
                | Some true => inl childpos
                | Some false => inl (childpos + 1)%nat
                end
            | _, _ => inr IndexError
            end
          else inl childpos in
        match smaller with
        | inr exc => (heap, pos, Some exc)
        | inl childpos =>
            match heap !! childpos, heap !! pos with
            | Some tmp1, Some tmp2 =>
                siftup_loop fuel'
                  (<[pos := tmp1]> (<[childpos := tmp2]> heap)) childpos
            | _, _ => (heap, pos, Some IndexError)
            end
        end
      else (heap, pos, None)
  end.

(** [siftup(heap, pos)]: the item goes down to a leaf, then up again to its
    place with [siftdown]. *)
Definition siftup (heap : list Entry) (pos : nat)
  : list Entry * option Exception :=
  if bool_decide (length heap ≤ pos)%nat then (heap, Some IndexError)
  else
    match siftup_loop (length heap) heap pos with
    | (heap', _, Some exc) => (heap', Some exc)
    | (heap', leaf, None) => siftdown heap' pos leaf
    end.

(** [heapq.heappush]: the item is appended, then sifted. *)
Definition heappush (heap : list Entry) (item : Entry)
  : list Entry * option Exception :=
  siftdown (heap ++ [item]) 0 (length heap).

(** [heapq.heappop]: the last item is taken off and, unless it was the only
    one, put at the root in place of the item to return, and sifted.  When a
    comparison raises, the item that was at the root is returned to nobody. *)
Definition heappop (heap : list Entry) : list Entry * (Entry + Exception) :=
  match last heap with
  | None => (heap, inr IndexError)
  | Some lastelt =>
      match take (length heap - 1) heap with
      | [] => ([], inl lastelt)
      | returnitem :: rest =>
          match siftup (<[0%nat := lastelt]> (returnitem :: rest)) 0 with
          | (heap', Some exc) => (heap', inr exc)
          | (heap', None) => (heap', inl returnitem)
          end
      end
  end.

(** [asyncio.PriorityQueue], unbounded: [items] is its heap [_queue],
    [unfinished] its count [_unfinished_tasks]. *)
Record PriorityQueue : Type := mkPriorityQueue {
  items : list Entry;
  unfinished : Z
}.

(** [put]: [heappush], and only then the count goes up. *)
Definition queue_put (e : Entry) (pq : PriorityQueue)
  : PriorityQueue * option Exception :=
  match heappush (items pq) e with
  | (heap', Some exc) => (mkPriorityQueue heap' (unfinished pq), Some exc)
  | (heap', None) => (mkPriorityQueue heap' (unfinished pq + 1), None)
  end.

(** [get] on a queue that is not empty: [heappop].  On an empty queue [get]
    waits ([None]). *)
Definition queue_get (pq : PriorityQueue)
  : option (PriorityQueue * (Entry + Exception)) :=
  match items pq with
  | [] => None
  | _ :: _ =>
      let (heap', res) := heappop (items pq) in
      Some (mkPriorityQueue heap' (unfinished pq), res)
  end.

(** [task_done] *)
Definition task_done (pq : PriorityQueue) : PriorityQueue * option Exception :=
  if unfinished pq <=? 0 then (pq, Some ValueError)
  else (mkPriorityQueue (items pq) (unfinished pq - 1), None).

Record PriorityMessageQueue : Type := mkPriorityMessageQueue {
  queue : PriorityQueue;
  user_last_processed : gmap Z Z
}.

(** The priority computed at the head of [add_message]. *)
Definition priority_of (user_last_processed : gmap Z Z) (user_id now : Z) : Z :=
  match user_last_processed !! user_id with
  | None => 0
  | Some last =>
      let time_since_last := now - last in
      if time_since_last >? 300 then 1
      else if time_since_last >? 60 then 2
      else 3
  end.

(** [add_message]; an exception of [put] goes to the caller. *)
Definition add_message (md : IntakeData) (user_id now : Z)
    (q : PriorityMessageQueue) : PriorityMessageQueue * option Exception :=
  let p := priority_of (user_last_processed q) user_id now in
  let (pq, exc) := queue_put (mkEntry p now md) (queue q) in
  (mkPriorityMessageQueue pq (user_last_processed q), exc).

(** What a worker has in hand after the first half of a turn. *)
Inductive Taken : Type :=
  | TimedOut
  | Got (e : Entry)
  | Failed (exc : Exception).

(** One turn of the loop of [process_messages] up to the call of
    [process_single_message]: the tuple is taken and the requester stamped
    with the clock reading [now].  [get] on an empty queue times out and
    the loop goes round; an exception of [get] is caught and logged by the
    loop, and the loop goes round. *)
Definition start_processing (now : Z) (q : PriorityMessageQueue)
  : PriorityMessageQueue * Taken :=
  match queue_get (queue q) with
  | None => (q, TimedOut)
  | Some (pq, inr exc) =>
      (mkPriorityMessageQueue pq (user_last_processed q), Failed exc)
  | Some (pq, inl e) =>
      (mkPriorityMessageQueue pq
         (<[intake_user_id (message_data e) := now]> (user_last_processed q)),
       Got e)
  end.

(** The rest of the turn, once [process_single_message] has returned:
    [self.queue.task_done()], whose exception the loop catches as well. *)
Definition finish_processing (q : PriorityMessageQueue)
  : PriorityMessageQueue * option Exception :=
  let (pq, exc) := task_done (queue q) in
  (mkPriorityMessageQueue pq (user_last_processed q), exc).

(** Submissions in turn, from the first of the list on; the exception of
    each call is kept. *)
Fixpoint submit_all (subs : list (IntakeData * Z)) (q : PriorityMessageQueue)
  : PriorityMessageQueue * list (option Exception) :=
  match subs with
  | [] => (q, [])
  | (md, now) :: rest =>
      let (q1, exc) := add_message md (intake_user_id md) now q in
      let (q2, excs) := submit_all rest q1 in
      (q2, exc :: excs)
  end.

(** Worker turns in turn, one per clock reading: each takes a tuple and,
    when it got one, finishes it. *)
Fixpoint work_all (times : list Z) (q : PriorityMessageQueue)
  : PriorityMessageQueue * list Taken :=
  match times with
  | [] => (q, [])
  | now :: rest =>
      let (q1, taken) := start_processing now q in
      let q2 := match taken with Got _ => fst (finish_processing q1) | _ => q1 end in
      let (q3, takens) := work_all rest q2 in
      (q3, taken :: takens)
  end.

(** *** The order of the heap

    The words in which the properties of the queue are stated.  A tuple is
    ordered by its priority and time; the heap order on the list is that no
    item goes before its parent, the parent of position [i] being position
    [(i - 1) / 2]. *)

Definition entry_key (e : Entry) : Z * Z := (priority e, enqueued_at e).









End Intake.

(** ** Objects and references: [get_pending_messages]

    [get_pending_messages] returns [self.pending_messages.copy()].  What a
    caller can do to the queue through the returned dictionary depends on
    which objects are shared, so this part keeps a store: dictionary objects
    and message objects live at addresses, a dictionary maps ids to
    addresses of messages. *)

Module Refs.

Record Store : Type := mkStore {
  dicts : gmap nat (PyDict.pydict nat);
  messages : gmap nat ModerationMessage
}.

(** The queue object: the address held by [self.pending_messages]. *)
Record QueueObject : Type := mkQueueObject {
  pending_ref : nat
}.

(** [d.copy()]: a new dictionary object with the same items. *)
Definition dict_copy (d : nat) (s : Store) : option (Store * nat) :=
  match dicts s !! d with
  | Some content =>
      let d' := fresh (dom (dicts s)) in
      Some (mkStore (<[d' := content]> (dicts s)) (messages s), d')
  | None => None
  end.

(** [get_pending_messages] *)
Definition get_pending_messages (self : QueueObject) (s : Store)
  : option (Store * nat) :=
  dict_copy (pending_ref self) s.

(** What a caller does to a dictionary it holds: [d[k] = v], [del d[k]] /
    [d.pop(k)], [d.clear()]. *)
Inductive DictOp : Type :=
  | SetItem (k : string) (v : nat)
  | DelItem (k : string)
  | Clear.

Definition apply_op (d : nat) (op : DictOp) (s : Store) : Store :=
  match dicts s !! d with
  | Some content =>
      let content' :=
        match op with
        | SetItem k v => PyDict.set k v content
        | DelItem k => PyDict.remove k content
        | Clear => []
        end in
      mkStore (<[d := content']> (dicts s)) (messages s)
  | None => s
  end.

Fixpoint apply_ops (d : nat) (ops : list DictOp) (s : Store) : Store :=
  match ops with
  | [] => s
  | op :: ops' => apply_ops d ops' (apply_op d op s)
  end.

(** The pending set the queue's own operations see: its dictionary with
    every address followed. *)
Fixpoint resolve (s : Store) (content : PyDict.pydict nat)
  : option (PyDict.pydict ModerationMessage) :=
  match content with
  | [] => Some []
  | (k, a) :: rest =>
      m ← messages s !! a;
      d ← resolve s rest;
      Some ((k, m) :: d)
  end.

Definition pending_view (self : QueueObject) (s : Store)
  : option (PyDict.pydict ModerationMessage) :=
  content ← dicts s !! pending_ref self;
  resolve s content.

End Refs.

(** ** Sample states

    Small concrete states on which the statements below are exercised. *)

Definition sample_message : ModerationMessage :=
  mkMessage "deadbeef" (-100) 42 "alice" "Hello?" "Hi!" 0 None None
    "pending" None None (Some 86400) 0 None None None None None None 0 None.

Definition sample_queue : ModerationQueue :=
  mkQueue [("deadbeef", sample_message)] [] [] 86400 None [].

Definition empty_queue : ModerationQueue := mkQueue [] [] [] 86400 None [].

Definition sample_data : MessageData :=
  mkMessageData (-100) 42 (Some "alice") "Hello?" "Hi!" None None.

(** Two records enqueued at time 0. *)
Definition two_pending : ModerationQueue :=
  fst (add_to_queue sample_data None "cafebabe-0000-4000-8000-000000000002" 0
         (fst (add_to_queue sample_data None
                 "deadbeef-0000-4000-8000-000000000001" 0 empty_queue))).

(** Reviewer 7 has pressed "edit" on the first of them at time 100. *)
Definition editing_state : AdminState :=
  fst (handle_edit_callback 7 "r1" "deadbeef" 100 (mkAdminState two_pending ∅ ∅)).

(** The first record as reviewer 7 holds it. *)
Definition held_message : ModerationMessage :=
  acquired 7 "r1" 100 sample_message.

(** The second record, which nobody holds. *)
Definition free_message : ModerationMessage :=
  mkMessage "cafebabe" (-100) 42 "alice" "Hello?" "Hi!" 0 None None
    "pending" None None (Some 86400) 0 None None None None None None 0 None.

(** One record enqueued at time 0 and taken for editing by reviewer 7 at
    time 100. *)
Definition one_editing : AdminState :=
  fst (handle_edit_callback 7 "r1" "deadbeef" 100
         (mkAdminState
            (fst (add_to_queue sample_data None
                    "deadbeef-0000-4000-8000-000000000001" 0 empty_queue))
            ∅ ∅)).

(** The same once another reviewer has approved the record by command at
    time 200: the pending set is empty, the session of reviewer 7 is still
    there. *)
Definition stale_session_state : AdminState :=
  set_queue (fst (approve_message "deadbeef" 200 (moderation_queue one_editing)))
    one_editing.

(** An intake queue nobody has used yet. *)
Definition empty_intake : Intake.PriorityMessageQueue :=
  Intake.mkPriorityMessageQueue (Intake.mkPriorityQueue [] 0) ∅.


(** Four requests of four requesters never served before; the clock reads
    the same, 7, at the second and the third submission. *)
Definition four_submissions : list (Intake.IntakeData * Z) :=
  [ (Intake.mkIntakeData 201 1 "question A" 5, 5);
    (Intake.mkIntakeData 202 2 "question B" 7, 7);
    (Intake.mkIntakeData 203 3 "question C" 7, 7);
    (Intake.mkIntakeData 204 4 "question D" 9, 9) ].

Definition other_data : MessageData :=
  mkMessageData (-200) 43 (Some "bob") "Other?" "Sure." None None.

(** A store with the queue's pending dictionary at address 0, holding the
    sample record. *)
Definition sample_store : Refs.Store :=
  Refs.mkStore {[ 0%nat := [("deadbeef", 0%nat)] ]} {[ 0%nat := sample_message ]}.

Definition sample_queue_object : Refs.QueueObject := Refs.mkQueueObject 0.

(** * Properties *)

(** ** Dictionaries *)

Section PyDictFacts.
Context {V : Type}.
Implicit Types (d : PyDict.pydict V) (k : string) (v : V).

Lemma pydict_get_remove_eq k d : PyDict.get k (PyDict.remove k d) = None.
Proof.
  induction d as [|[k' v'] d IH]; simpl; [done|].
  destruct (String.eqb k' k) eqn:E; [done|]. simpl. by rewrite E.
Qed.

Lemma pydict_get_remove_ne k k' d :
  k ≠ k' → PyDict.get k' (PyDict.remove k d) = PyDict.get k' d.
Proof.
  intros Hne. induction d as [|[k0 v0] d IH]; simpl; [done|].
  destruct (String.eqb k0 k) eqn:E.
  - apply String.eqb_eq in E as ->.
    destruct (String.eqb k k') eqn:E'; [|done].
    by apply String.eqb_eq in E'.
  - simpl. by rewrite IH.
Qed.

Lemma pydict_remove_absent k d : PyDict.get k d = None → PyDict.remove k d = d.
Proof.
  induction d as [|[k' v'] d IH]; simpl; [done|].
  destruct (String.eqb k' k); [done|]. intros H. by rewrite IH.
Qed.

Lemma pydict_get_set_eq k v d : PyDict.get k (PyDict.set k v d) = Some v.
Proof.
  induction d as [|[k' v'] d IH]; simpl.
  - by rewrite String.eqb_refl.
  - destruct (String.eqb k' k) eqn:E; simpl.
    + by rewrite String.eqb_refl.
    + by rewrite E.
Qed.

Lemma pydict_get_set_ne k k' v d :
  k ≠ k' → PyDict.get k' (PyDict.set k v d) = PyDict.get k' d.
Proof.
  intros Hne. induction d as [|[k0 v0] d IH]; simpl.
  - destruct (String.eqb k k') eqn:E; [|done].
    by apply String.eqb_eq in E.
  - destruct (String.eqb k0 k) eqn:E; simpl.
    + apply String.eqb_eq in E as ->.
      destruct (String.eqb k k') eqn:E'; [|done].
      by apply String.eqb_eq in E'.
    + by rewrite IH.
Qed.

Lemma pydict_keys_set_present k v v0 d :
  PyDict.get k d = Some v0 → PyDict.keys (PyDict.set k v d) = PyDict.keys d.
Proof.
  induction d as [|[k' v'] d IH]; simpl; [done|].
  destruct (String.eqb k' k) eqn:E; simpl.
  - by apply String.eqb_eq in E as ->.
  - intros H. f_equal. by apply IH.
Qed.

Lemma pydict_get_None_keys k d : PyDict.get k d = None ↔ k ∉ PyDict.keys d.
Proof.
  induction d as [|[k' v'] d IH]; simpl.
  - split; [intros _; apply not_elem_of_nil | done].
  - rewrite not_elem_of_cons. destruct (String.eqb k' k) eqn:E.
    + apply String.eqb_eq in E as ->. split; [done | by intros [? _]].
    + apply String.eqb_neq in E. rewrite IH. split; [by intros ?; split | by intros [_ ?]].
Qed.

Lemma pydict_get_Some_elem k v d : PyDict.get k d = Some v → (k, v) ∈ d.
Proof.
  induction d as [|[k' v'] d IH]; simpl; [done|].
  destruct (String.eqb k' k) eqn:E.
  - apply String.eqb_eq in E as ->. intros [= ->]. left.
  - intros H. right. by apply IH.
Qed.

Lemma pydict_elem_get k v d :
  NoDup (PyDict.keys d) → (k, v) ∈ d → PyDict.get k d = Some v.
Proof.
  induction d as [|[k' v'] d IH]; simpl.
  - intros _ H. by apply elem_of_nil in H.
  - rewrite NoDup_cons. intros [Hk Hd] [[= -> ->]|H]%elem_of_cons.
    + by rewrite String.eqb_refl.
    + destruct (String.eqb k' k) eqn:E; [|by apply IH].
      apply String.eqb_eq in E as ->. destruct Hk.
      apply list_elem_of_fmap. by exists (k, v).
Qed.

End PyDictFacts.
Lemma to_int_not_nil (d : Z) :
  Z.to_int d ≠ Decimal.Pos Decimal.Nil ∧ Z.to_int d ≠ Decimal.Neg Decimal.Nil.
Proof.
  destruct d as [|p|p]; simpl; split; try discriminate;
    intros [= H]; by apply Unsigned.to_uint_nonnil in H.
Qed.

Lemma fromisoformat_isoformat (d : Z) : fromisoformat (isoformat d) = Some d.
Proof.
  unfold fromisoformat, isoformat.
  destruct (to_int_not_nil d) as [H1 H2].
  rewrite NilZero.isi by done. by rewrite DecimalZ.of_to.
Qed.

Lemma isoformat_nonempty (d : Z) : String.eqb (isoformat d) "" = false.
Proof.
  apply String.eqb_neq. unfold isoformat.
  destruct d as [|p|p]; simpl; try discriminate.
  unfold NilZero.string_of_uint.
  destruct (Pos.to_uint p) eqn:E; try discriminate.
Qed.


Section Readers.
Variables (k : string) (data : PyDict.pydict json).

Lemma arg_opt_datetime_written o :
  PyDict.get k data = Some (json_of_datetime o) → arg_opt_datetime k data = Some o.
Proof.
  unfold arg_opt_datetime. intros ->. destruct o as [d|]; simpl; [|done].
  by rewrite isoformat_nonempty, fromisoformat_isoformat.
Qed.

Lemma arg_datetime_written d :
  PyDict.get k data = Some (JStr (isoformat d)) → arg_datetime k data = Some d.
Proof. unfold arg_datetime. intros ->. apply fromisoformat_isoformat. Qed.

Lemma arg_opt_num_written o :
  PyDict.get k data = Some (json_of_num o) → arg_opt_num k data = Some o.
Proof. unfold arg_opt_num. intros ->. by destruct o. Qed.

Lemma arg_opt_str_written o :
  PyDict.get k data = Some (json_of_str o) → arg_opt_str k data = Some o.
Proof. unfold arg_opt_str. intros ->. by destruct o. Qed.

Lemma arg_num_written z :
  PyDict.get k data = Some (JNum z) → arg_num k data = Some z.
Proof. unfold arg_num. by intros ->. Qed.

Lemma arg_str_written s :
  PyDict.get k data = Some (JStr s) → arg_str k data = Some s.
Proof. unfold arg_str. by intros ->. Qed.

Lemma arg_num_default_written z dflt :
  PyDict.get k data = Some (JNum z) → arg_num_default k dflt data = Some z.
Proof. unfold arg_num_default. by intros ->. Qed.

Lemma arg_str_default_written s dflt :
  PyDict.get k data = Some (JStr s) → arg_str_default k dflt data = Some s.
Proof. unfold arg_str_default. by intros ->. Qed.
End Readers.

Lemma from_dict_to_dict (m : ModerationMessage) : from_dict (to_dict m) = Some m.
Proof.
  unfold from_dict.
  rewrite (arg_datetime_written "timestamp" _ (timestamp m)) by reflexivity.
  rewrite (arg_opt_datetime_written "moderated_at" _ (moderated_at m)) by reflexivity.
  rewrite (arg_opt_datetime_written "expires_at" _ (expires_at m)) by reflexivity.
  rewrite (arg_opt_datetime_written "last_notification" _ (last_notification m)) by reflexivity.
  rewrite (arg_num_default_written "retry_count" _ (retry_count m)) by reflexivity.
  rewrite (arg_opt_num_written "admin_processing" _ (admin_processing m)) by reflexivity.
  rewrite (arg_opt_str_written "admin_name" _ (admin_name m)) by reflexivity.
  rewrite (arg_opt_num_written "editing_admin_id" _ (editing_admin_id m)) by reflexivity.
  rewrite (arg_opt_str_written "editing_admin_name" _ (editing_admin_name m)) by reflexivity.
  rewrite (arg_opt_num_written "editing_started_at" _ (editing_started_at m)) by reflexivity.
  rewrite (arg_opt_str_written "chat_title" _ (chat_title m)) by reflexivity.
  rewrite (arg_num_default_written "reminder_count" _ (reminder_count m)) by reflexivity.
  rewrite (arg_opt_num_written "last_reminder_time" _ (last_reminder_time m)) by reflexivity.
  rewrite (arg_str_written "message_id" _ (message_id m)) by reflexivity.
  rewrite (arg_num_written "chat_id" _ (chat_id m)) by reflexivity.
  rewrite (arg_num_written "user_id" _ (user_id m)) by reflexivity.
  rewrite (arg_str_written "username" _ (username m)) by reflexivity.
  rewrite (arg_str_written "original_message" _ (original_message m)) by reflexivity.
  rewrite (arg_str_written "ai_response" _ (ai_response m)) by reflexivity.
  rewrite (arg_opt_num_written "original_message_id" _ (original_message_id m)) by reflexivity.
  rewrite (arg_str_default_written "status" _ (status m)) by reflexivity.
  rewrite (arg_opt_str_written "rejection_reason" _ (rejection_reason m)) by reflexivity.
  by destruct m.
Qed.

(** ** Approve and reject *)

Lemma approve_message_absent id now q :
  get_from_queue id q = None → approve_message id now q = (q, None).
Proof. unfold get_from_queue, approve_message. by intros ->. Qed.

Lemma reject_message_absent id reason now q :
  get_from_queue id q = None → reject_message id reason now q = (q, None).
Proof. unfold get_from_queue, reject_message. by intros ->. Qed.

(** C3. An id that is not in the pending set makes [approve_message] and
    [reject_message] return [None] and leave the whole queue as it was; an id
    that is in it has its record taken out of the pending set, stamped with
    the decision time (and, for a rejection, the reason), appended to the
    approved (rejected) archive and returned.  The id is then absent, so a
    record once approved or rejected is found by neither operation again. *)
Theorem approve_reject_by_id (q : ModerationQueue) (id : string)
    (reason : option string) (now : Z) :
  (get_from_queue id q = None →
     approve_message id now q = (q, None)
     ∧ reject_message id reason now q = (q, None))
  ∧ (∀ m, get_from_queue id q = Some m →
       (∃ q',
          approve_message id now q = (q', Some (approved_at now m))
          ∧ status (approved_at now m) = "approved"
          ∧ moderated_at (approved_at now m) = Some now
          ∧ pending_messages q' = PyDict.remove id (pending_messages q)
          ∧ get_from_queue id q' = None
          ∧ approved_messages q' = approved_messages q ++ [approved_at now m]
          ∧ rejected_messages q' = rejected_messages q
          ∧ ∀ now' reason',
              approve_message id now' q' = (q', None)
              ∧ reject_message id reason' now' q' = (q', None))
       ∧ (∃ q',
          reject_message id reason now q = (q', Some (rejected_at now reason m))
          ∧ status (rejected_at now reason m) = "rejected"
          ∧ rejection_reason (rejected_at now reason m) = reason
          ∧ moderated_at (rejected_at now reason m) = Some now
          ∧ pending_messages q' = PyDict.remove id (pending_messages q)
          ∧ get_from_queue id q' = None
          ∧ approved_messages q' = approved_messages q
          ∧ rejected_messages q' = rejected_messages q ++ [rejected_at now reason m]
          ∧ ∀ now' reason',
              approve_message id now' q' = (q', None)
              ∧ reject_message id reason' now' q' = (q', None))).
Proof.
  split.
  - intros H. split; [by apply approve_message_absent | by apply reject_message_absent].
  - intros m Hm. unfold get_from_queue in Hm. split.
    + eexists. unfold approve_message. rewrite Hm. split; [reflexivity|].
      assert (Hgone : get_from_queue id
                (_save_data now
                   (set_records (PyDict.remove id (pending_messages q))
                      (approved_messages q ++ [approved_at now m])
                      (rejected_messages q) q)) = None)
        by apply pydict_get_remove_eq.
      repeat split; try done.
      * by apply approve_message_absent.
      * by apply reject_message_absent.
    + eexists. unfold reject_message. rewrite Hm. split; [reflexivity|].
      assert (Hgone : get_from_queue id
                (_save_data now
                   (set_records (PyDict.remove id (pending_messages q))
                      (approved_messages q)
                      (rejected_messages q ++ [rejected_at now reason m]) q)) = None)
        by apply pydict_get_remove_eq.
      repeat split; try done.
      * by apply approve_message_absent.
      * by apply reject_message_absent.
Qed.

Lemma approve_reject_by_id_witness :
  get_from_queue "deadbeef" sample_queue = Some sample_message
  ∧ ∃ q', approve_message "deadbeef" 5 sample_queue
            = (q', Some (approved_at 5 sample_message))
          ∧ get_from_queue "deadbeef" q' = None.
Proof.
  split; [reflexivity|].
  destruct (approve_reject_by_id sample_queue "deadbeef" None 5) as [_ H].
  destruct (H sample_message eq_refl) as [(q' & H1 & _ & _ & _ & H5 & _) _].
  exists q'. split; [exact H1 | exact H5].
Defined.

(** ** The expiry sweep *)

Lemma pydict_remove_filter {V} k (d : PyDict.pydict V) :
  PyDict.remove k d = List.filter (λ kv, negb (String.eqb (fst kv) k)) d.
Proof.
  induction d as [|[k' v'] d IH]; simpl; [done|].
  destruct (String.eqb k' k); simpl; by rewrite IH.
Qed.

Lemma filter_filter_and {A} (f g : A → bool) (l : list A) :
  List.filter f (List.filter g l) = List.filter (λ x, g x && f x) l.
Proof.
  induction l as [|x l IH]; simpl; [done|].
  destruct (g x); simpl; [destruct (f x)|]; by rewrite IH.
Qed.

Lemma filter_all {A} (f : A → bool) (l : list A) :
  (∀ x, In x l → f x = true) → List.filter f l = l.
Proof.
  induction l as [|x l IH]; simpl; [done|]. intros H.
  rewrite (H x) by by left. f_equal. apply IH. intros y Hy. apply H. by right.
Qed.

Lemma id_in_spec ids k : id_in ids k = true ↔ k ∈ ids.
Proof.
  unfold id_in. rewrite existsb_exists, list_elem_of_In. split.
  - intros (x & Hx & ->%String.eqb_eq). done.
  - intros H. exists k. split; [done | apply String.eqb_refl].
Qed.

Lemma set_records_id q :
  set_records (pending_messages q) (approved_messages q) (rejected_messages q) q = q.
Proof. by destruct q. Qed.

Lemma expire_ids_spec now (l : list (string * ModerationMessage)) q :
  (∀ k m, (k, m) ∈ l → PyDict.get k (pending_messages q) = Some m) →
  NoDup (map fst l) →
  expire_ids now (map fst l) q =
    set_records
      (List.filter (λ kv, negb (id_in (map fst l) (fst kv))) (pending_messages q))
      (approved_messages q)
      (rejected_messages q ++ map (λ kv, expire now (snd kv)) l) q.
Proof.
  revert q. induction l as [|[k m] l IH]; intros q Hget Hnd.
  - simpl. rewrite filter_all by done. rewrite app_nil_r. by rewrite set_records_id.
  - simpl in *. apply NoDup_cons in Hnd as [Hk Hnd].
    rewrite (Hget k m) by left.
    rewrite IH; [|..|done].
    + unfold set_records. simpl. f_equal; [|by rewrite <- app_assoc].
      rewrite pydict_remove_filter, filter_filter_and.
      apply filter_ext. intros [k' v']. simpl. by rewrite negb_orb.
    + intros k' m' Hin. simpl. rewrite pydict_get_remove_ne; [apply Hget; by right|].
      intros ->. apply Hk. apply list_elem_of_fmap. by exists (k', m').
Qed.

Lemma NoDup_keys_filter {V} (f : string * V → bool) (d : PyDict.pydict V) :
  NoDup (PyDict.keys d) → NoDup (map fst (List.filter f d)).
Proof.
  unfold PyDict.keys. induction d as [|[k v] d IH]; simpl; [done|].
  rewrite NoDup_cons. intros [Hk Hd]. destruct (f (k, v)); simpl; [|by apply IH].
  apply NoDup_cons. split; [|by apply IH].
  intros ([k' v'] & -> & Hin)%list_elem_of_fmap. apply Hk.
  apply list_elem_of_In, filter_In in Hin as [Hin _].
  apply list_elem_of_fmap. exists (k', v'). split; [done|]. by apply list_elem_of_In.
Qed.

Lemma expired_ids_member now q k m :
  NoDup (PyDict.keys (pending_messages q)) →
  (k, m) ∈ pending_messages q →
  id_in (expired_ids now q) k = is_expired now m.
Proof.
  intros Hnd Hin. unfold expired_ids.
  destruct (is_expired now m) eqn:E.
  - apply id_in_spec, list_elem_of_fmap. exists (k, m). split; [done|].
    apply list_elem_of_In, filter_In. split; [by apply list_elem_of_In | done].
  - apply not_true_is_false. rewrite id_in_spec.
    intros ([k' m'] & Hk & Hin')%list_elem_of_fmap. simpl in Hk. subst k'.
    apply list_elem_of_In, filter_In in Hin' as [Hin' Hexp]. simpl in Hexp.
    apply list_elem_of_In in Hin'.
    apply (pydict_elem_get _ _ _ Hnd) in Hin, Hin'. congruence.
Qed.

Lemma cleanup_expired_records now q :
  NoDup (PyDict.keys (pending_messages q)) →
  let q' := fst (_cleanup_expired_messages now q) in
  pending_messages q' =
    List.filter (λ kv, negb (is_expired now (snd kv))) (pending_messages q)
  ∧ approved_messages q' = approved_messages q
  ∧ rejected_messages q' =
      rejected_messages q
      ++ map (λ kv, expire now (snd kv))
           (List.filter (λ kv, is_expired now (snd kv)) (pending_messages q)).
Proof.
  intros Hnd. unfold _cleanup_expired_messages. cbn zeta.
  set (l := List.filter (λ kv, is_expired now (snd kv)) (pending_messages q)).
  assert (Hids : expired_ids now q = map fst l) by done.
  assert (Hq : expire_ids now (expired_ids now q) q =
    set_records
      (List.filter (λ kv, negb (is_expired now (snd kv))) (pending_messages q))
      (approved_messages q)
      (rejected_messages q ++ map (λ kv, expire now (snd kv)) l) q).
  { rewrite Hids, expire_ids_spec.
    - f_equal. apply filter_ext_in. intros [k m] Hin. simpl.
      rewrite <- Hids. f_equal. apply expired_ids_member; [done|].
      by apply list_elem_of_In.
    - intros k m Hin. apply pydict_elem_get; [done|].
      apply list_elem_of_In, filter_In in Hin as [Hin _]. by apply list_elem_of_In.
    - by apply NoDup_keys_filter. }
  rewrite Hq. by destruct (expired_ids now q).
Qed.

Lemma pydict_get_filter {V} (f : string * V → bool) k (d : PyDict.pydict V) :
  NoDup (PyDict.keys d) →
  PyDict.get k (List.filter f d) =
    match PyDict.get k d with
    | Some v => if f (k, v) then Some v else None
    | None => None
    end.
Proof.
  unfold PyDict.keys. induction d as [|[k' v'] d IH]; simpl; [done|].
  rewrite NoDup_cons. intros [Hk Hd].
  destruct (String.eqb k' k) eqn:E.
  - apply String.eqb_eq in E as ->. destruct (f (k, v')) eqn:Ef; simpl.
    + by rewrite String.eqb_refl.
    + apply pydict_get_None_keys. intros Hin. apply Hk.
      apply list_elem_of_fmap in Hin as ([k0 v0] & -> & Hin).
      apply list_elem_of_In, filter_In in Hin as [Hin _].
      apply list_elem_of_fmap. exists (k0, v0). split; [done|]. by apply list_elem_of_In.
  - destruct (f (k', v')); simpl; [rewrite E|]; by apply IH.
Qed.

Lemma is_expired_iff now m :
  is_expired now m = true ↔ ∃ e, expires_at m = Some e ∧ e < now.
Proof.
  unfold is_expired. destruct (expires_at m) as [e|].
  - rewrite Z.gtb_ltb, Z.ltb_lt. split; [by exists e | by intros (? & [= <-] & ?)].
  - split; [done | by intros (? & ? & _)].
Qed.

(** C5. The cleanup sweep moves every pending record whose expiry time has
    passed ([expires_at] is set and [now] is later) out of the pending set
    and into the rejected archive with status [expired], whatever its lock
    fields hold; the count it returns is the number of records moved; the
    other records stay pending, unchanged. *)
Theorem cleanup_moves_expired (now : Z) (q : ModerationQueue) :
  NoDup (PyDict.keys (pending_messages q)) →
  let q' := fst (_cleanup_expired_messages now q) in
  let n := snd (_cleanup_expired_messages now q) in
  (∀ id m e, get_from_queue id q = Some m → expires_at m = Some e → e < now →
     get_from_queue id q' = None
     ∧ expire now m ∈ rejected_messages q'
     ∧ status (expire now m) = "expired"
     ∧ moderated_at (expire now m) = Some now)
  ∧ (∀ id m, get_from_queue id q = Some m → is_expired now m = false →
       get_from_queue id q' = Some m)
  ∧ n = Z.of_nat (length
          (List.filter (λ kv, is_expired now (snd kv)) (pending_messages q)))
  ∧ rejected_messages q' =
      rejected_messages q
      ++ map (λ kv, expire now (snd kv))
           (List.filter (λ kv, is_expired now (snd kv)) (pending_messages q))
  ∧ approved_messages q' = approved_messages q.
Proof.
  intros Hnd q' n.
  destruct (cleanup_expired_records now q Hnd) as (Hp & Ha & Hr).
  fold q' in Hp, Ha, Hr. unfold get_from_queue.
  repeat split; try done.
  - rewrite Hp, pydict_get_filter by done. rewrite H. simpl.
    assert (is_expired now m = true) as -> by (apply is_expired_iff; eauto). done.
  - rewrite Hr. apply elem_of_app. right.
    apply (list_elem_of_fmap_2 (λ kv, expire now (snd kv)) _ (id, m)).
    apply list_elem_of_In, filter_In. split.
    + by apply list_elem_of_In, pydict_get_Some_elem.
    + simpl. apply is_expired_iff; eauto.
  - intros id m Hm Hexp. rewrite Hp, pydict_get_filter by done.
    rewrite Hm. simpl. by rewrite Hexp.
  - unfold n, _cleanup_expired_messages. simpl. unfold expired_ids.
    by rewrite length_map.
Qed.

Lemma cleanup_moves_expired_witness :
  get_from_queue "deadbeef" (fst (_cleanup_expired_messages 86401 sample_queue)) = None
  ∧ expire 86401 sample_message
      ∈ rejected_messages (fst (_cleanup_expired_messages 86401 sample_queue)).
Proof.
  assert (Hnd : NoDup (PyDict.keys (pending_messages sample_queue))).
  { apply NoDup_cons. split; [apply not_elem_of_nil | apply NoDup_nil_2]. }
  destruct (cleanup_moves_expired 86401 sample_queue Hnd) as [H _].
  destruct (H "deadbeef" sample_message 86400 eq_refl eq_refl eq_refl)
    as (H1 & H2 & _).
  split; [exact H1 | exact H2].
Defined.

(** A record that a reviewer is editing expires like any other, and is then
    found by neither [approve_message] nor [reject_message]. *)
Lemma locked_record_expires :
  let q := moderation_queue one_editing in
  let q' := fst (_cleanup_expired_messages 86401 q) in
  (editing_admin_id <$> get_from_queue "deadbeef" q) = Some (Some 7)
  ∧ snd (_cleanup_expired_messages 86401 q) = 1
  ∧ pending_messages q' = []
  ∧ (status <$> rejected_messages q') = ["expired"]
  ∧ (editing_admin_id <$> rejected_messages q') = [Some 7]
  ∧ approve_message "deadbeef" 86402 q' = (q', None)
  ∧ reject_message "deadbeef" None 86402 q' = (q', None).
Proof. cbv zeta. split_and!; vm_compute; reflexivity. Qed.

(** ** The keys of the pending dictionary stay distinct *)

Lemma pydict_keys_set {V} k (v : V) (d : PyDict.pydict V) :
  PyDict.keys (PyDict.set k v d)
  = if PyDict.mem k d then PyDict.keys d else PyDict.keys d ++ [k].
Proof.
  unfold PyDict.mem, PyDict.keys.
  induction d as [|[k' v'] d IH]; simpl; [done|].
  destruct (String.eqb k' k) eqn:E; simpl.
  - by apply String.eqb_eq in E as ->.
  - rewrite IH. by destruct (PyDict.get k d).
Qed.

Lemma pydict_set_NoDup {V} k (v : V) (d : PyDict.pydict V) :
  NoDup (PyDict.keys d) → NoDup (PyDict.keys (PyDict.set k v d)).
Proof.
  intros Hnd. rewrite pydict_keys_set. unfold PyDict.mem.
  destruct (PyDict.get k d) eqn:E; [done|].
  apply NoDup_app. split; [done|]. split; [|apply NoDup_singleton].
  intros x Hx ->%list_elem_of_singleton. by apply pydict_get_None_keys in E.
Qed.

Lemma pydict_remove_NoDup {V} k (d : PyDict.pydict V) :
  NoDup (PyDict.keys d) → NoDup (PyDict.keys (PyDict.remove k d)).
Proof. rewrite pydict_remove_filter. apply NoDup_keys_filter. Qed.

Lemma queue_operations_keep_keys_distinct q :
  NoDup (PyDict.keys (pending_messages q)) →
  (∀ md hours uuid_text now,
     NoDup (PyDict.keys (pending_messages (fst (add_to_queue md hours uuid_text now q)))))
  ∧ (∀ id now,
       NoDup (PyDict.keys (pending_messages (fst (approve_message id now q)))))
  ∧ (∀ id reason now,
       NoDup (PyDict.keys (pending_messages (fst (reject_message id reason now q)))))
  ∧ (∀ now,
       NoDup (PyDict.keys (pending_messages (fst (_cleanup_expired_messages now q)))))
  ∧ NoDup (PyDict.keys (pending_messages (fst (clear_all_pending q)))).
Proof.
  intros Hnd. repeat split.
  - intros. by apply pydict_set_NoDup.
  - intros id now. unfold approve_message.
    destruct (PyDict.get id (pending_messages q)); [|done].
    by apply pydict_remove_NoDup.
  - intros id reason now. unfold reject_message.
    destruct (PyDict.get id (pending_messages q)); [|done].
    by apply pydict_remove_NoDup.
  - intros now. destruct (cleanup_expired_records now q Hnd) as [-> _].
    by apply NoDup_keys_filter.
  - apply NoDup_nil_2.
Qed.



(** ** Saving and loading *)

Lemma load_pending_saved (p : PyDict.pydict ModerationMessage) :
  load_pending (map (λ kv, (fst kv, JObj (to_dict (snd kv)))) p) = Some p.
Proof.
  induction p as [|[k m] p IH]; [done|].
  cbn [map load_pending fst snd message_of_json].
  rewrite from_dict_to_dict. simpl. by rewrite IH.
Qed.

Lemma load_archive_saved (l : list ModerationMessage) :
  load_archive (map (λ m, JObj (to_dict m)) l) = Some l.
Proof.
  induction l as [|m l IH]; [done|].
  cbn [map load_archive message_of_json].
  rewrite from_dict_to_dict. simpl. by rewrite IH.
Qed.

Lemma load_records_saved now q :
  load_records (saved_data now q)
  = Some (pending_messages q, approved_messages q, rejected_messages q).
Proof.
  unfold load_records, saved_data.
  cbn [PyDict.get String.eqb Ascii.eqb Bool.eqb].
  rewrite load_pending_saved. simpl.
  rewrite !load_archive_saved. done.
Qed.

Lemma validate_saved now q : _validate_data_integrity (saved_data now q) = true.
Proof. reflexivity. Qed.

(** The message a store holds when only the required keys are written. *)
Lemma from_dict_required_only mid cid uid uname orig resp ts :
  from_dict
    [ ("message_id", JStr mid); ("chat_id", JNum cid); ("user_id", JNum uid);
      ("username", JStr uname); ("original_message", JStr orig);
      ("ai_response", JStr resp); ("timestamp", JStr (isoformat ts)) ]
  = Some (mkMessage mid cid uid uname orig resp ts None None "pending" None
            None None 0 None None None None None None 0 None).
Proof.
  unfold from_dict.
  rewrite (arg_datetime_written "timestamp" _ ts) by reflexivity.
  reflexivity.
Qed.

Lemma to_dict_keys m : PyDict.keys (to_dict m) = field_names.
Proof. reflexivity. Qed.

Lemma field_names_NoDup : NoDup field_names.
Proof. apply (bool_decide_unpack (NoDup field_names)). vm_compute. exact I. Qed.

Lemma get_without_keys ks k m :
  PyDict.get k (without_keys ks (to_dict m))
  = if id_in ks k then None else PyDict.get k (to_dict m).
Proof.
  unfold without_keys. rewrite pydict_get_filter.
  2:{ rewrite to_dict_keys. apply field_names_NoDup. }
  cbn [fst]. destruct (PyDict.get k (to_dict m)); by destruct (id_in ks k).
Qed.

Section ReadersMissing.
Variables (k : string) (b : bool) (data data' : PyDict.pydict json).
Hypothesis Hget : PyDict.get k data' = if b then None else PyDict.get k data.

Lemma arg_opt_datetime_missing o :
  PyDict.get k data = Some (json_of_datetime o) →
  arg_opt_datetime k data' = Some (if b then None else o).
Proof.
  intros H. destruct b.
  - unfold arg_opt_datetime. by rewrite Hget.
  - apply arg_opt_datetime_written. by rewrite Hget.
Qed.

Lemma arg_opt_num_missing o :
  PyDict.get k data = Some (json_of_num o) →
  arg_opt_num k data' = Some (if b then None else o).
Proof.
  intros H. destruct b.
  - unfold arg_opt_num. by rewrite Hget.
  - apply arg_opt_num_written. by rewrite Hget.
Qed.

Lemma arg_opt_str_missing o :
  PyDict.get k data = Some (json_of_str o) →
  arg_opt_str k data' = Some (if b then None else o).
Proof.
  intros H. destruct b.
  - unfold arg_opt_str. by rewrite Hget.
  - apply arg_opt_str_written. by rewrite Hget.
Qed.

Lemma arg_num_default_missing z dflt :
  PyDict.get k data = Some (JNum z) →
  arg_num_default k dflt data' = Some (if b then dflt else z).
Proof.
  intros H. destruct b.
  - unfold arg_num_default. by rewrite Hget.
  - apply arg_num_default_written. by rewrite Hget.
Qed.

Lemma arg_str_default_missing s dflt :
  PyDict.get k data = Some (JStr s) →
  arg_str_default k dflt data' = Some (if b then dflt else s).
Proof.
  intros H. destruct b.
  - unfold arg_str_default. by rewrite Hget.
  - apply arg_str_default_written. by rewrite Hget.
Qed.

End ReadersMissing.

Lemma required_not_optional ks k :
  (∀ x, x ∈ ks → x ∈ optional_names) → k ∉ optional_names → id_in ks k = false.
Proof.
  intros Hks Hk. apply not_true_is_false. rewrite id_in_spec. intros H. by apply Hk, Hks.
Qed.

Lemma forallb_filter {A} (f g : A → bool) (l : list A) :
  forallb f l = true → forallb f (List.filter g l) = true.
Proof.
  induction l as [|x l IH]; simpl; [done|].
  intros [Hx Hl]%andb_true_iff. destruct (g x); simpl; [rewrite Hx|]; by apply IH.
Qed.

Lemma known_without_keys ks m :
  forallb known_field (PyDict.keys (without_keys ks (to_dict m))) = true.
Proof.
  unfold PyDict.keys, without_keys.
  assert (H : ∀ (l : PyDict.pydict json),
    forallb known_field (map fst l) = true →
    forallb known_field (map fst (List.filter (λ kv, negb (id_in ks (fst kv))) l))
    = true).
  { induction l as [|[k v] l IH]; simpl; [done|].
    intros [Hk Hl]%andb_true_iff.
    destruct (id_in ks k); simpl; [|rewrite Hk]; by apply IH. }
  by apply H.
Qed.

(** A stored record that lacks some of the optional keys is read with the
    defaults of those fields. *)
Lemma from_dict_missing_optional ks m :
  (∀ x, x ∈ ks → x ∈ optional_names) →
  from_dict (without_keys ks (to_dict m)) = Some (with_defaults ks m).
Proof.
  intros Hks.
  assert (Hreq : ∀ k, bool_decide (k ∈ optional_names) = false → id_in ks k = false).
  { intros k Hk. apply required_not_optional; [done|].
    by apply bool_decide_eq_false in Hk. }
  assert (Hr : ∀ k, bool_decide (k ∈ optional_names) = false →
    PyDict.get k (without_keys ks (to_dict m)) = PyDict.get k (to_dict m)).
  { intros k Hk. by rewrite get_without_keys, Hreq. }
  unfold from_dict.
  rewrite (arg_datetime_written "timestamp" _ (timestamp m))
    by (rewrite Hr; reflexivity).
  rewrite (arg_opt_datetime_missing "moderated_at" _ _ _ (get_without_keys ks _ m) (moderated_at m)) by reflexivity.
  rewrite (arg_opt_datetime_missing "expires_at" _ _ _ (get_without_keys ks _ m) (expires_at m)) by reflexivity.
  rewrite (arg_opt_datetime_missing "last_notification" _ _ _ (get_without_keys ks _ m) (last_notification m)) by reflexivity.
  rewrite (arg_num_default_missing "retry_count" _ _ _ (get_without_keys ks _ m) (retry_count m)) by reflexivity.
  rewrite (arg_opt_num_missing "admin_processing" _ _ _ (get_without_keys ks _ m) (admin_processing m)) by reflexivity.
  rewrite (arg_opt_str_missing "admin_name" _ _ _ (get_without_keys ks _ m) (admin_name m)) by reflexivity.
  rewrite (arg_opt_num_missing "editing_admin_id" _ _ _ (get_without_keys ks _ m) (editing_admin_id m)) by reflexivity.
  rewrite (arg_opt_str_missing "editing_admin_name" _ _ _ (get_without_keys ks _ m) (editing_admin_name m)) by reflexivity.
  rewrite (arg_opt_num_missing "editing_started_at" _ _ _ (get_without_keys ks _ m) (editing_started_at m)) by reflexivity.
  rewrite (arg_opt_str_missing "chat_title" _ _ _ (get_without_keys ks _ m) (chat_title m)) by reflexivity.
  rewrite (arg_num_default_missing "reminder_count" _ _ _ (get_without_keys ks _ m) (reminder_count m)) by reflexivity.
  rewrite (arg_opt_num_missing "last_reminder_time" _ _ _ (get_without_keys ks _ m) (last_reminder_time m)) by reflexivity.
  rewrite known_without_keys.
  rewrite (arg_str_written "message_id" _ (message_id m)) by (rewrite Hr; reflexivity).
  rewrite (arg_num_written "chat_id" _ (chat_id m)) by (rewrite Hr; reflexivity).
  rewrite (arg_num_written "user_id" _ (user_id m)) by (rewrite Hr; reflexivity).
  rewrite (arg_str_written "username" _ (username m)) by (rewrite Hr; reflexivity).
  rewrite (arg_str_written "original_message" _ (original_message m)) by (rewrite Hr; reflexivity).
  rewrite (arg_str_written "ai_response" _ (ai_response m)) by (rewrite Hr; reflexivity).
  rewrite (arg_opt_num_missing "original_message_id" _ _ _ (get_without_keys ks _ m) (original_message_id m)) by reflexivity.
  rewrite (arg_str_default_missing "status" _ _ _ (get_without_keys ks _ m) (status m)) by reflexivity.
  rewrite (arg_opt_str_missing "rejection_reason" _ _ _ (get_without_keys ks _ m) (rejection_reason m)) by reflexivity.
  reflexivity.
Qed.

(** C7. Saving the queue and loading the written file gives back the same
    pending dictionary and the same two archives, record for record (so the
    same ids, statuses and texts), whatever optional fields the records
    leave unset and whatever the loading object holds in memory: the
    records come from the file.  [from_dict] reads a stored record from
    which optional keys are missing with the defaults of those fields
    instead of failing. *)
Theorem save_load_round_trip (now now' : Z) (q memory : ModerationQueue) :
  (storage_file memory = storage_file (_save_to_file now q) →
   let q' := _load_from_file now' memory in
   pending_messages q' = pending_messages q
   ∧ approved_messages q' = approved_messages q
   ∧ rejected_messages q' = rejected_messages q)
  ∧ (∀ m, from_dict (to_dict m) = Some m)
  ∧ (∀ ks m, (∀ k, k ∈ ks → k ∈ optional_names) →
       from_dict (without_keys ks (to_dict m)) = Some (with_defaults ks m)).
Proof.
  split; [|split; [apply from_dict_to_dict | apply from_dict_missing_optional]].
  intros Hfile. unfold _load_from_file. rewrite Hfile.
  unfold _save_to_file. cbn [storage_file set_storage_file].
  rewrite validate_saved, load_records_saved. done.
Qed.

Lemma save_load_round_trip_witness :
  pending_messages
    (_load_from_file 9
       (set_storage_file (storage_file (_save_to_file 8 sample_queue)) empty_queue))
  = pending_messages sample_queue
  ∧ from_dict (without_keys ["chat_title"; "reminder_count"; "editing_admin_id"]
                 (to_dict held_message))
    = Some (with_defaults ["chat_title"; "reminder_count"; "editing_admin_id"]
              held_message).
Proof.
  destruct (save_load_round_trip 8 9 sample_queue
              (set_storage_file (storage_file (_save_to_file 8 sample_queue))
                 empty_queue)) as (H1 & _ & H3).
  split; [exact (proj1 (H1 eq_refl))|]. apply H3.
  intros k Hk. apply (bool_decide_unpack (k ∈ optional_names)).
  revert k Hk. apply Forall_forall. repeat constructor.
Defined.

(** ** The editing lock *)

Lemma acquired_after_release a n t m :
  acquired a n t (set_editing None None None m) = acquired a n t m.
Proof. by destruct m. Qed.

Lemma get_after_grant id m now q :
  get_from_queue id
    (_save_data now (set_pending (PyDict.set id m (pending_messages q)) q))
  = Some m.
Proof. apply pydict_get_set_eq. Qed.

Lemma truthy_id_Some a : a ≠ 0 → truthy_id (Some a) = true.
Proof. intros H. simpl. by apply negb_true_iff, Z.eqb_neq. Qed.

(** C1, as the code has it.  A caller who already has an edit session is
    turned away with a warning and nothing changes.  For a caller without
    one, and a record found in the pending set once the callback has
    reloaded the queue: an unlocked record is locked for the caller; a record
    locked by the caller is locked for the caller again, the acquisition time
    renewed; a record locked by another reviewer less than 600 seconds ago is
    denied with the owner's name and stays as it is; one locked by another
    reviewer 600 seconds ago or more has the stale lock cleared and is locked
    for the caller. *)
Theorem edit_callback_lock_cases (admin : Z) (name id : string) (now : Z)
    (st : AdminState) :
  (∀ active, correction_states st !! admin = Some active →
     handle_edit_callback admin name id now st
     = (st, EditSessionActive (session_message_id active)))
  ∧ (∀ m, correction_states st !! admin = None →
       get_from_queue id (_load_data now (moderation_queue st)) = Some m →
       let res := handle_edit_callback admin name id now st in
       let granted :=
         snd res = EditActivated
         ∧ get_from_queue id (moderation_queue (fst res))
           = Some (acquired admin name now m)
         ∧ editing_admin_id (acquired admin name now m) = Some admin
         ∧ editing_started_at (acquired admin name now m) = Some now
         ∧ correction_states (fst res) !! admin
           = Some (mkSession id "waiting_correction") in
       (truthy_id (editing_admin_id m) = false → granted)
       ∧ (editing_admin_id m = Some admin → granted)
       ∧ (∀ owner started,
            editing_admin_id m = Some owner → owner ≠ 0 → owner ≠ admin →
            editing_started_at m = Some started →
            (now - started < 600 →
               snd res = EditDenied (editing_admin_name m)
               ∧ get_from_queue id (moderation_queue (fst res)) = Some m
               ∧ correction_states (fst res) = correction_states st)
            ∧ (600 ≤ now - started → granted))).
Proof.
  split.
  - intros active Hs. unfold handle_edit_callback. by rewrite Hs.
  - intros m Hs Hm res granted.
    assert (Hgrant : ∀ m1,
      check_editing_lock admin now m = inl m1 →
      acquired admin name now m1 = acquired admin name now m → granted).
    { intros m1 Hc Ha. unfold granted, res, handle_edit_callback.
      rewrite Hs. cbn zeta. rewrite Hm, Hc, Ha. cbn [fst snd].
      split; [done|]. split; [apply get_after_grant|].
      split; [done|]. split; [done|]. apply lookup_insert_eq. }
    split; [|split].
    + intros Hu. apply (Hgrant m); [|done].
      unfold check_editing_lock. by rewrite Hu.
    + intros Ho. apply (Hgrant m); [|done].
      unfold check_editing_lock. rewrite Ho.
      rewrite bool_decide_eq_true_2 by done. by rewrite andb_false_r.
    + intros owner started Ho Hz Hne Hst.
      assert (Hlock : truthy_id (editing_admin_id m)
                && negb (bool_decide (editing_admin_id m = Some admin)) = true).
      { rewrite Ho, truthy_id_Some by done.
        rewrite bool_decide_eq_false_2; [done|]. by intros [= ->]. }
      split.
      * intros Hlt. unfold res, handle_edit_callback, check_editing_lock.
        rewrite Hs. cbn zeta. rewrite Hm, Hlock, Hst.
        assert ((now - started <? 600) = true) as -> by by apply Z.ltb_lt.
        done.
      * intros Hge. apply (Hgrant (set_editing None None None m));
          [|apply acquired_after_release].
        unfold check_editing_lock. rewrite Hlock, Hst.
        assert ((now - started <? 600) = false) as -> by by apply Z.ltb_ge.
        done.
Qed.

Lemma edit_callback_lock_cases_witness :
  snd (handle_edit_callback 8 "r2" "deadbeef" 700 editing_state) = EditActivated
  ∧ get_from_queue "deadbeef"
      (moderation_queue (fst (handle_edit_callback 8 "r2" "deadbeef" 700 editing_state)))
    = Some (acquired 8 "r2" 700 held_message).
Proof.
  destruct (edit_callback_lock_cases 8 "r2" "deadbeef" 700 editing_state) as [_ H].
  assert (Hs : correction_states editing_state !! 8 = None)
    by (vm_compute; reflexivity).
  assert (Hm : get_from_queue "deadbeef"
                 (_load_data 700 (moderation_queue editing_state))
               = Some held_message)
    by (vm_compute; reflexivity).
  destruct (H held_message Hs Hm) as (_ & _ & Hother).
  destruct (Hother 7 100 eq_refl ltac:(lia) ltac:(lia) eq_refl) as [_ Hstale].
  destruct (Hstale ltac:(lia)) as (H1 & H2 & _).
  split; [exact H1 | exact H2].
Defined.

(** C1 as the specification words it fails: reviewer 7, who holds the lock on
    "deadbeef" and has the edit session that goes with it, presses "edit".
    On the record 7 already owns the call is not a success but the
    active-session warning; on "cafebabe", which nobody holds, the same
    warning comes back and the record stays unlocked. *)
Lemma edit_callback_active_session_refused :
  (get_from_queue "deadbeef" (moderation_queue editing_state) = Some held_message
   ∧ editing_admin_id held_message = Some 7
   ∧ snd (handle_edit_callback 7 "r1" "deadbeef" 150 editing_state)
     = EditSessionActive "deadbeef"
   ∧ snd (handle_edit_callback 7 "r1" "deadbeef" 150 editing_state) ≠ EditActivated)
  ∧ (get_from_queue "cafebabe" (moderation_queue editing_state) = Some free_message
     ∧ truthy_id (editing_admin_id free_message) = false
     ∧ snd (handle_edit_callback 7 "r1" "cafebabe" 150 editing_state)
       = EditSessionActive "deadbeef"
     ∧ get_from_queue "cafebabe"
         (moderation_queue (fst (handle_edit_callback 7 "r1" "cafebabe" 150 editing_state)))
       = Some free_message).
Proof.
  assert (H : snd (handle_edit_callback 7 "r1" "deadbeef" 150 editing_state)
              = EditSessionActive "deadbeef") by (vm_compute; reflexivity).
  repeat split; try (vm_compute; reflexivity).
  rewrite H. discriminate.
Qed.

(** ** The two lock representations *)

Lemma lock_for_editing_both a n m :
  status (lock_for_editing a n m) = "processing"
  ∧ admin_processing (lock_for_editing a n m) = Some a.
Proof. done. Qed.

Lemma unlock_editing_both m :
  status (unlock_editing m) = "pending" ∧ admin_processing (unlock_editing m) = None.
Proof. done. Qed.

(** What the timeout monitor writes leaves [status] and [admin_processing]
    as they were. *)
Lemma release_keeps_status m :
  status (set_editing None None None m) = status m
  ∧ admin_processing (set_editing None None None m) = admin_processing m
  ∧ editing_admin_id (set_editing None None None m) = None.
Proof. done. Qed.

(** Granting the lock sets both representations, and the reviewer's own
    cancellation clears both. *)
Lemma acquire_then_cancel a n t m :
  (status (acquired a n t m) = "processing"
   ∧ editing_admin_id (acquired a n t m) = Some a
   ∧ admin_processing (acquired a n t m) = Some a)
  ∧ (status (release_by a (acquired a n t m)) = "pending"
     ∧ editing_admin_id (release_by a (acquired a n t m)) = None
     ∧ admin_processing (release_by a (acquired a n t m)) = None).
Proof.
  split; [done|]. unfold release_by. cbn [acquired lock_for_editing
    set_status set_admin_processing set_editing editing_admin_id
    admin_processing is_locked].
  rewrite !bool_decide_eq_true_2 by done. done.
Qed.

(** C2 at the failing input.  Reviewer 7 takes a record for editing at time
    100: the status is [processing] and the lock owner is 7, the two agree.
    The timeout monitor wakes at time 701 and releases the lock: the
    lock-owner field is [None], the status is still [processing] and
    [admin_processing] still names reviewer 7, so status and lock owner no
    longer agree.  The reviewer's own cancellation at the same time leaves
    them in agreement. *)
Theorem timeout_sweep_leaves_status_locked :
  (∃ m, get_from_queue "deadbeef" (moderation_queue one_editing) = Some m
        ∧ (status m = "processing" ↔ editing_admin_id m ≠ None)
        ∧ status m = "processing" ∧ editing_admin_id m = Some 7)
  ∧ snd (check_editing_timeouts 701 one_editing) = true
  ∧ (∃ m, get_from_queue "deadbeef"
            (moderation_queue (fst (check_editing_timeouts 701 one_editing)))
          = Some m
          ∧ ¬ (status m = "processing" ↔ editing_admin_id m ≠ None)
          ∧ status m = "processing"
          ∧ admin_processing m = Some 7
          ∧ editing_admin_id m = None)
  ∧ (∃ m, get_from_queue "deadbeef"
            (moderation_queue
               (fst (handle_cancel_edit_callback 7 "deadbeef" 701 one_editing)))
          = Some m
          ∧ (status m = "processing" ↔ editing_admin_id m ≠ None)
          ∧ status m = "pending"
          ∧ editing_admin_id m = None).
Proof.
  split; [|split; [|split]].
  - eexists. split; [vm_compute; reflexivity|]. by repeat split.
  - vm_compute; reflexivity.
  - eexists. split; [vm_compute; reflexivity|]. repeat split.
    intros [H _]. by apply H.
  - eexists. split; [vm_compute; reflexivity|]. repeat split; done.
Qed.

(** ** Clearing the queue *)

Lemma clear_all_pending_spec q :
  snd (clear_all_pending q) = Z.of_nat (length (pending_messages q))
  ∧ pending_messages (fst (clear_all_pending q)) = []
  ∧ storage_file (fst (clear_all_pending q)) = None
  ∧ approved_messages (fst (clear_all_pending q)) = approved_messages q
  ∧ rejected_messages (fst (clear_all_pending q)) = rejected_messages q
  ∧ ∀ id now,
      approve_message id now (fst (clear_all_pending q))
      = (fst (clear_all_pending q), None).
Proof. repeat split. Qed.

(** C4, as the code has it.  [clear_all_pending] returns the number of
    records that were pending, empties the pending set and removes the
    storage file, after which [approve_message] finds no id.  The
    confirmation callback, for an authorised reviewer and a pending set that
    is not empty, does this and then clears every edit session; on an empty
    pending set it answers that the queue is already empty and changes
    nothing. *)
Theorem clear_confirm_spec (admins : list Z) (admin : Z) (st : AdminState) :
  let res := handle_clear_confirm_yes_callback admins admin st in
  (is_admin admins admin = true →
   pending_messages (moderation_queue st) ≠ [] →
     snd res = ClearDone (Z.of_nat (length (pending_messages (moderation_queue st))))
                 (Z.of_nat (size (correction_states st)))
     ∧ pending_messages (moderation_queue (fst res)) = []
     ∧ storage_file (moderation_queue (fst res)) = None
     ∧ correction_states (fst res) = ∅
     ∧ ∀ id now,
         approve_message id now (moderation_queue (fst res))
         = (moderation_queue (fst res), None))
  ∧ (is_admin admins admin = true →
     pending_messages (moderation_queue st) = [] →
       res = (st, ClearAlreadyEmpty)).
Proof.
  intros res. unfold res, handle_clear_confirm_yes_callback, get_pending_count.
  split; intros -> Hp; cbn [negb].
  - destruct (pending_messages (moderation_queue st)) eqn:E; [done|].
    cbn [length]. replace (Z.of_nat (S (length p0)) =? 0) with false
      by (symmetry; apply Z.eqb_neq; lia).
    unfold clear_all_pending. rewrite E. cbn [length fst snd]. repeat split.
  - by rewrite Hp.
Qed.

Lemma clear_confirm_spec_witness :
  snd (handle_clear_confirm_yes_callback [7; 8] 8 one_editing) = ClearDone 1 1
  ∧ correction_states (fst (handle_clear_confirm_yes_callback [7; 8] 8 one_editing)) = ∅.
Proof.
  destruct (clear_confirm_spec [7; 8] 8 one_editing) as [H _].
  assert (Hp : pending_messages (moderation_queue one_editing) ≠ [])
    by (vm_compute; discriminate).
  destruct (H eq_refl Hp) as (H1 & _ & _ & H4 & _).
  split; [exact H1 | exact H4].
Defined.

(** C4 as the specification words it fails: the pending set is empty and reviewer 7
    still has an edit session (its record was approved by command); reviewer
    8, who is authorised, confirms the clearing.  The session of reviewer 7
    is still there afterwards. *)
Lemma clear_on_empty_keeps_sessions :
  pending_messages (moderation_queue stale_session_state) = []
  ∧ correction_states stale_session_state !! 7
    = Some (mkSession "deadbeef" "waiting_correction")
  ∧ is_admin [7; 8] 8 = true
  ∧ snd (handle_clear_confirm_yes_callback [7; 8] 8 stale_session_state)
    = ClearAlreadyEmpty
  ∧ correction_states
      (fst (handle_clear_confirm_yes_callback [7; 8] 8 stale_session_state)) !! 7
    = Some (mkSession "deadbeef" "waiting_correction")
  ∧ correction_states
      (fst (handle_clear_confirm_yes_callback [7; 8] 8 stale_session_state)) ≠ ∅.
Proof.
  assert (H : correction_states
      (fst (handle_clear_confirm_yes_callback [7; 8] 8 stale_session_state)) !! 7
    = Some (mkSession "deadbeef" "waiting_correction")) by (vm_compute; reflexivity).
  repeat split; try (vm_compute; reflexivity).
  intros He. rewrite He in H. by rewrite lookup_empty in H.
Qed.

(** ** The intake queue *)

Section Heap.
Import Intake.
























End Heap.




(** C6. Four requesters never served before submit at the clock readings 5,
    7, 7 and 9.  Each submission is queued with priority 0 and none raises.
    The worker's first [get] compares the two tuples of reading 7, whose
    priority and time agree, so their dictionaries are compared and
    [TypeError] is raised: the tuple of reading 5, the earliest, has left
    the heap and reaches no worker, and its requester is not stamped.  The
    second [get] raises in the same way and loses the tuple of reading 9.
    The two tuples of reading 7 are then served and the queue is empty: of
    four requests two were never processed.  And of two first-time
    requesters who submit at one clock reading, the second has
    [add_message] raise [TypeError]. *)
Theorem tied_clock_readings_lose_requests :
  let submitted := Intake.submit_all four_submissions empty_intake in
  let worked := Intake.work_all [10; 11; 12; 13; 14] (fst submitted) in
  snd submitted = [None; None; None; None]
  ∧ Intake.entry_key <$> Intake.items (Intake.queue (fst submitted))
    = [(0, 5); (0, 7); (0, 7); (0, 9)]
  ∧ snd worked
    = [ Intake.Failed Intake.TypeError;
        Intake.Failed Intake.TypeError;
        Intake.Got (Intake.mkEntry 0 7 (Intake.mkIntakeData 202 2 "question B" 7));
        Intake.Got (Intake.mkEntry 0 7 (Intake.mkIntakeData 203 3 "question C" 7));
        Intake.TimedOut ]
  ∧ Intake.items (Intake.queue (fst worked)) = []
  ∧ Intake.user_last_processed (fst worked) !! 1 = None
  ∧ Intake.user_last_processed (fst worked) !! 4 = None
  ∧ snd (Intake.submit_all
           [ (Intake.mkIntakeData 301 1 "first" 20, 20);
             (Intake.mkIntakeData 302 2 "second" 20, 20) ] empty_intake)
    = [None; Some Intake.TypeError].
Proof. cbv zeta. split_and!; vm_compute; reflexivity. Qed.





(** ** Reminders *)

Lemma should_send_reminder_iff now msg :
  should_send_reminder now msg = true ↔
    truthy_id (editing_admin_id msg) = false
    ∧ reminder_count msg < 4
    ∧ schedule_get (reminder_count msg + 1) 3600 reminder_schedule
      ≤ now - default (timestamp msg) (last_reminder_time msg).
Proof.
  unfold should_send_reminder.
  destruct (truthy_id (editing_admin_id msg)); [by split; [|intros [? _]]|].
  destruct (Z.ltb_spec (reminder_count msg) 4).
  - rewrite Z.geb_le. destruct (last_reminder_time msg); simpl; split; intros; try done; tauto.
  - split; [done | lia].
Qed.

Lemma remind_one_count now msg :
  reminder_count (remind_one now msg)
  = if should_send_reminder now msg then reminder_count msg + 1 else reminder_count msg.
Proof. unfold remind_one. by destruct (should_send_reminder now msg). Qed.

Lemma remind_over_count times msg :
  reminder_count (fst (remind_over times msg))
  = reminder_count msg + snd (remind_over times msg)
  ∧ 0 ≤ snd (remind_over times msg)
  ∧ (reminder_count msg ≤ 4 → reminder_count (fst (remind_over times msg)) ≤ 4).
Proof.
  revert msg. induction times as [|now times IH]; intros msg; simpl.
  - lia.
  - destruct (IH (remind_one now msg)) as (H1 & H2 & H3).
    destruct (remind_over times (remind_one now msg)) as [msg' n]. simpl in *.
    rewrite remind_one_count in H1, H3.
    destruct (should_send_reminder now msg) eqn:E.
    + apply should_send_reminder_iff in E. lia.
    + lia.
Qed.

Lemma remind_all_records admins reachable disabled now items :
  fst (fst (remind_all admins reachable disabled now items))
  = map (λ kv, (fst kv, remind_one now (snd kv))) items.
Proof.
  induction items as [|[k m] items IH]; [done|]. simpl.
  destruct (remind_all admins reachable disabled now items) as [[rest' ds] c].
  simpl in IH. unfold remind_one.
  destruct (should_send_reminder now m); simpl; by rewrite IH.
Qed.

Lemma reminder_recipients_spec admins disabled msg a :
  a ∈ reminder_recipients admins disabled msg ↔
    a ∈ admins
    ∧ (a ∉ disabled)
    ∧ ¬ (truthy_id (editing_admin_id msg) = true ∧ editing_admin_id msg = Some a).
Proof.
  unfold reminder_recipients.
  rewrite list_elem_of_In, filter_In, <- list_elem_of_In.
  rewrite andb_true_iff, !negb_true_iff, andb_false_iff.
  rewrite !bool_decide_eq_false.
  destruct (truthy_id (editing_admin_id msg)).
  - split.
    + intros (Ha & [[?|Hne] Hd]); [done|]. repeat split; [done..|].
      intros [_ He]. by rewrite He in Hne.
    + intros (Ha & Hd & Hne). repeat split; [done| |done].
      right. intros He. apply Hne. by split.
  - split.
    + intros (Ha & _ & Hd). repeat split; [done..|]. by intros [? _].
    + intros (Ha & Hd & _). repeat split; [done| |done]. by left.
Qed.

Lemma remind_all_deliveries admins reachable disabled now items id a :
  (id, a) ∈ snd (fst (remind_all admins reachable disabled now items)) →
  a ∈ admins ∧ (a ∉ disabled)
  ∧ ∃ k m, (k, m) ∈ items ∧ message_id m = id
           ∧ should_send_reminder now m = true.
Proof.
  induction items as [|[k m] items IH]; simpl.
  - intros H. by apply elem_of_nil in H.
  - destruct (remind_all admins reachable disabled now items) as [[rest' ds] c].
    simpl in IH. destruct (should_send_reminder now m) eqn:E; simpl.
    + rewrite elem_of_app. intros [Hin|Hin].
      * apply list_elem_of_fmap in Hin as (a' & Heq & Hin). simplify_eq.
        apply list_elem_of_In, filter_In in Hin as [Hin _].
        apply list_elem_of_In, reminder_recipients_spec in Hin as (? & ? & _).
        split; [done|]. split; [done|]. exists k, m. split; [left|done].
      * destruct (IH Hin) as (? & ? & k' & m' & ? & ? & ?).
        split; [done|]. split; [done|]. exists k', m'. split; [by right|done].
    + intros Hin. destruct (IH Hin) as (? & ? & k' & m' & ? & ? & ?).
      split; [done|]. split; [done|]. exists k', m'. split; [by right|done].
Qed.

(** C8, as the code has it.  A pending record that has had [k] reminders is
    due for the next one exactly when nobody is editing it, [k < 4], and the
    time since its last reminder (since its creation when it has had none)
    is at least the interval of reminder [k + 1]: 1, 2, 4, 8 hours.  No
    record gets more than 4 reminders; a record under an editing lock is
    never due; a reminder goes to no reviewer who has disabled reminders and
    not to the reviewer editing the record. *)
Theorem reminder_policy (admins : list Z) :
  (∀ now msg,
     should_send_reminder now msg = true ↔
       truthy_id (editing_admin_id msg) = false
       ∧ reminder_count msg < 4
       ∧ schedule_get (reminder_count msg + 1) 3600 reminder_schedule
         ≤ now - default (timestamp msg) (last_reminder_time msg))
  ∧ (schedule_get 1 3600 reminder_schedule = 3600
     ∧ schedule_get 2 3600 reminder_schedule = 7200
     ∧ schedule_get 3 3600 reminder_schedule = 14400
     ∧ schedule_get 4 3600 reminder_schedule = 28800)
  ∧ (∀ reachable disabled now items,
       fst (fst (remind_all admins reachable disabled now items))
       = map (λ kv, (fst kv, remind_one now (snd kv))) items)
  ∧ (∀ times msg, reminder_count msg = 0 →
       snd (remind_over times msg) ≤ 4
       ∧ reminder_count (fst (remind_over times msg)) = snd (remind_over times msg))
  ∧ (∀ now msg owner, editing_admin_id msg = Some owner → owner ≠ 0 →
       should_send_reminder now msg = false)
  ∧ (∀ reachable disabled now msg a,
       a ∈ snd (fst (send_smart_reminder admins reachable disabled now msg)) →
       a ∈ admins ∧ (a ∉ disabled)
       ∧ (a ≠ 0 → editing_admin_id msg ≠ Some a))
  ∧ (∀ reachable disabled now q id a,
       (id, a) ∈ snd (_send_reminders admins reachable disabled now q) →
       (a ∉ disabled)
       ∧ ∃ k m, (k, m) ∈ pending_messages q ∧ message_id m = id
                ∧ truthy_id (editing_admin_id m) = false).
Proof.
  split; [apply should_send_reminder_iff|]. split; [done|].
  split; [apply remind_all_records|]. split; [|split; [|split]].
  - intros times msg H0. destruct (remind_over_count times msg) as (H1 & H2 & H3).
    lia.
  - intros now msg owner Ho Hz. unfold should_send_reminder.
    by rewrite Ho, truthy_id_Some.
  - intros reachable disabled now msg a Hin. simpl in Hin.
    apply list_elem_of_In, filter_In in Hin as [Hin _].
    apply list_elem_of_In, reminder_recipients_spec in Hin as (Ha & Hd & Hne).
    split; [done|]. split; [done|]. intros Hz He. apply Hne. simpl.
    rewrite He. split; [by apply truthy_id_Some | done].
  - intros reachable disabled now q id a. unfold _send_reminders.
    destruct (remind_all admins reachable disabled now (pending_messages q))
      as [[p ds] c] eqn:E. simpl. intros Hin.
    assert (Hin' : (id, a) ∈ snd (fst (remind_all admins reachable disabled now
                                         (pending_messages q)))) by by rewrite E.
    apply remind_all_deliveries in Hin' as (_ & Hd & k & m & Hkm & Hid & Hs).
    split; [done|]. exists k, m. split; [done|]. split; [done|].
    by apply should_send_reminder_iff in Hs as [? _].
Qed.

Lemma reminder_policy_witness :
  should_send_reminder 3600 sample_message = true
  ∧ snd (remind_over [3600; 10800; 25200; 54000; 100000] sample_message) ≤ 4.
Proof.
  destruct (reminder_policy [7; 8]) as (Hiff & _ & _ & Hcap & _).
  split.
  - apply Hiff. vm_compute. repeat split; intros; discriminate.
  - exact (proj1 (Hcap [3600; 10800; 25200; 54000; 100000] sample_message eq_refl)).
Defined.

(** C8 as the specification words it fails: a record created at time 0 gets its
    first reminder at one hour.  Two hours after its creation, the second
    cumulative checkpoint, it is not due: the two hours of the second
    interval run from the first reminder, and the record is due at three
    hours. *)
Lemma second_reminder_counts_from_first :
  should_send_reminder 3600 sample_message = true
  ∧ timestamp (remind_one 3600 sample_message) = 0
  ∧ reminder_count (remind_one 3600 sample_message) = 1
  ∧ truthy_id (editing_admin_id (remind_one 3600 sample_message)) = false
  ∧ should_send_reminder 7200 (remind_one 3600 sample_message) = false
  ∧ should_send_reminder 10799 (remind_one 3600 sample_message) = false
  ∧ should_send_reminder 10800 (remind_one 3600 sample_message) = true.
Proof. repeat split. Qed.

(** ** Record ids *)

(** C9 at the failing input.  [uuid4] draws two values that agree on their
    first eight characters.  Both calls of [add_to_queue] return the id
    "deadbeef"; the second record takes the place of the first in the
    pending set, which holds one record after two enqueues.  Likewise an id
    that has left the pending set by approval is given to the next record
    whose draw starts with it. *)
Theorem enqueue_same_prefix_replaces :
  let first :=
    add_to_queue sample_data None "deadbeef-0000-4000-8000-000000000001" 0
      empty_queue in
  let second :=
    add_to_queue other_data None "deadbeef-1111-4111-8111-111111111111" 5
      (fst first) in
  let reused :=
    add_to_queue other_data None "deadbeef-1111-4111-8111-111111111111" 5
      (fst (approve_message "deadbeef" 1 (fst first))) in
  snd first = "deadbeef"
  ∧ snd second = "deadbeef"
  ∧ (original_message <$> get_from_queue "deadbeef" (fst first)) = Some "Hello?"
  ∧ (original_message <$> get_from_queue "deadbeef" (fst second)) = Some "Other?"
  ∧ length (pending_messages (fst second)) = 1%nat
  ∧ approved_messages (fst second) = []
  ∧ rejected_messages (fst second) = []
  ∧ snd reused = "deadbeef"
  ∧ (message_id <$> approved_messages (fst reused)) = ["deadbeef"]
  ∧ PyDict.keys (pending_messages (fst reused)) = ["deadbeef"].
Proof. repeat split. Qed.

(** The id is the first eight characters of the draw, whatever the pending
    set holds, and the record is stored under it. *)
Lemma add_to_queue_id md hours uuid_text now q :
  snd (add_to_queue md hours uuid_text now q) = String.substring 0 8 uuid_text
  ∧ (message_id <$> get_from_queue (String.substring 0 8 uuid_text)
                      (fst (add_to_queue md hours uuid_text now q)))
    = Some (String.substring 0 8 uuid_text).
Proof.
  split; [done|]. unfold add_to_queue, get_from_queue. cbn [fst].
  cbn [_save_data _save_to_file set_storage_file set_pending set_records pending_messages].
  by rewrite pydict_get_set_eq.
Qed.

(** ** The copy returned by [get_pending_messages] *)

Lemma apply_op_other d r op s :
  d ≠ r →
  Refs.dicts (Refs.apply_op d op s) !! r = Refs.dicts s !! r
  ∧ Refs.messages (Refs.apply_op d op s) = Refs.messages s.
Proof.
  intros Hne. unfold Refs.apply_op.
  destruct (Refs.dicts s !! d); [|done]. simpl.
  split; [by apply lookup_insert_ne | done].
Qed.

Lemma apply_ops_other d r ops s :
  d ≠ r →
  Refs.dicts (Refs.apply_ops d ops s) !! r = Refs.dicts s !! r
  ∧ Refs.messages (Refs.apply_ops d ops s) = Refs.messages s.
Proof.
  intros Hne. revert s. induction ops as [|op ops IH]; intros s; simpl; [done|].
  destruct (IH (Refs.apply_op d op s)) as [-> ->]. by apply apply_op_other.
Qed.

Lemma resolve_messages s s' content :
  Refs.messages s = Refs.messages s' → Refs.resolve s content = Refs.resolve s' content.
Proof.
  intros H. induction content as [|[k a] content IH]; simpl; [done|].
  by rewrite H, IH.
Qed.

(** C10. [get_pending_messages] hands out a new dictionary object with the
    items of the pending dictionary.  Whatever entries the caller then sets,
    deletes or clears in the returned dictionary, the dictionary the queue
    holds keeps its items, and the pending set its own operations read is
    the one from before the call. *)
Theorem pending_copy_is_detached (self : Refs.QueueObject) (s : Refs.Store) :
  (is_Some (Refs.dicts s !! Refs.pending_ref self) →
     is_Some (Refs.get_pending_messages self s))
  ∧ (∀ s1 d ops, Refs.get_pending_messages self s = Some (s1, d) →
       d ≠ Refs.pending_ref self
       ∧ Refs.dicts s1 !! d = Refs.dicts s !! Refs.pending_ref self
       ∧ Refs.dicts (Refs.apply_ops d ops s1) !! Refs.pending_ref self
         = Refs.dicts s !! Refs.pending_ref self
       ∧ Refs.messages (Refs.apply_ops d ops s1) = Refs.messages s
       ∧ Refs.pending_view self (Refs.apply_ops d ops s1)
         = Refs.pending_view self s).
Proof.
  unfold Refs.get_pending_messages, Refs.dict_copy. split.
  - intros [c ->]. eauto.
  - intros s1 d ops.
    destruct (Refs.dicts s !! Refs.pending_ref self) as [c|] eqn:E; [|done].
    intros [= <- <-].
    set (d := fresh (dom (Refs.dicts s))).
    assert (Hne : d ≠ Refs.pending_ref self).
    { intros Heq. apply (is_fresh (dom (Refs.dicts s))). fold d. rewrite Heq.
      apply elem_of_dom. by rewrite E. }
    destruct (apply_ops_other d (Refs.pending_ref self) ops
                (Refs.mkStore (<[d:=c]> (Refs.dicts s)) (Refs.messages s)) Hne)
      as [Hd Hm].
    simpl in Hd, Hm. rewrite lookup_insert_ne in Hd by done.
    split; [done|]. split; [simpl; by rewrite lookup_insert_eq|].
    split; [by rewrite Hd, E|]. split; [done|].
    unfold Refs.pending_view. rewrite Hd, E. simpl.
    by apply resolve_messages.
Qed.

Lemma pending_copy_is_detached_witness :
  ∃ s1 d,
    Refs.get_pending_messages sample_queue_object sample_store = Some (s1, d)
    ∧ Refs.pending_view sample_queue_object
        (Refs.apply_ops d [Refs.DelItem "deadbeef"; Refs.SetItem "cafebabe" 0%nat;
                           Refs.Clear] s1)
      = Some [("deadbeef", sample_message)].
Proof.
  destruct (pending_copy_is_detached sample_queue_object sample_store) as [Hsome H].
  destruct (Hsome ltac:(vm_compute; eauto)) as [[s1 d] Heq].
  exists s1, d. split; [exact Heq|].
  destruct (H s1 d [Refs.DelItem "deadbeef"; Refs.SetItem "cafebabe" 0%nat;
                    Refs.Clear] Heq) as (_ & _ & _ & _ & Hview).
  rewrite Hview. vm_compute. reflexivity.
Defined.

(** For contrast with the copy: an entry deleted through the queue's own
    dictionary object is gone from the pending set the queue reads. *)
Lemma shared_dictionary_shows_deletion :
  Refs.pending_view sample_queue_object sample_store
  = Some [("deadbeef", sample_message)]
  ∧ Refs.pending_view sample_queue_object
      (Refs.apply_op (Refs.pending_ref sample_queue_object)
         (Refs.DelItem "deadbeef") sample_store)
    = Some [].
Proof. split; vm_compute; reflexivity. Qed.

(** ** Further properties of the queue *)

Lemma pydict_length_remove {V} k (v : V) (d : PyDict.pydict V) :
  NoDup (PyDict.keys d) → PyDict.get k d = Some v →
  S (length (PyDict.remove k d)) = length d.
Proof.
  unfold PyDict.keys. induction d as [|[k' v'] d IH]; simpl; [done|].
  rewrite NoDup_cons. intros [Hk Hd].
  destruct (String.eqb k' k) eqn:E.
  - apply String.eqb_eq in E as ->. intros _.
    rewrite pydict_remove_absent; [done|]. by apply pydict_get_None_keys.
  - intros H. simpl. f_equal. by apply IH.
Qed.

Lemma filter_length_split {A} (f : A → bool) (l : list A) :
  (length (List.filter f l) + length (List.filter (λ x, negb (f x)) l))%nat
  = length l.
Proof.
  induction l as [|x l IH]; simpl; [done|].
  destruct (f x); simpl; lia.
Qed.

(** Approving, rejecting and the expiry sweep move records between the
    pending set and the archives and never add or drop one: the three counts
    of [get_statistics] keep their sum.  A decision on a pending id lowers
    the pending count by one and raises the count of its archive by one. *)
Theorem decisions_conserve_records (q : ModerationQueue) (now stats_at : Z) :
  NoDup (PyDict.keys (pending_messages q)) →
  let total q' :=
    stat_pending (get_statistics stats_at q')
    + stat_approved (get_statistics stats_at q')
    + stat_rejected (get_statistics stats_at q') in
  (∀ id, total (fst (approve_message id now q)) = total q)
  ∧ (∀ id reason, total (fst (reject_message id reason now q)) = total q)
  ∧ total (fst (_cleanup_expired_messages now q)) = total q
  ∧ (∀ id m, get_from_queue id q = Some m →
       stat_pending (get_statistics stats_at (fst (approve_message id now q)))
       = stat_pending (get_statistics stats_at q) - 1
       ∧ stat_approved (get_statistics stats_at (fst (approve_message id now q)))
         = stat_approved (get_statistics stats_at q) + 1
       ∧ ∀ reason,
           stat_pending (get_statistics stats_at (fst (reject_message id reason now q)))
           = stat_pending (get_statistics stats_at q) - 1
           ∧ stat_rejected (get_statistics stats_at (fst (reject_message id reason now q)))
             = stat_rejected (get_statistics stats_at q) + 1).
Proof.
  intros Hnd total. unfold total. cbn [get_statistics stat_pending stat_approved stat_rejected].
  assert (Ha : ∀ id m, PyDict.get id (pending_messages q) = Some m →
    S (length (PyDict.remove id (pending_messages q))) = length (pending_messages q))
    by (intros; by eapply pydict_length_remove).
  split_and!.
  - intros id. unfold approve_message.
    destruct (PyDict.get id (pending_messages q)) eqn:E; [|done].
    apply Ha in E. simpl. rewrite length_app. simpl. lia.
  - intros id reason. unfold reject_message.
    destruct (PyDict.get id (pending_messages q)) eqn:E; [|done].
    apply Ha in E. simpl. rewrite length_app. simpl. lia.
  - destruct (cleanup_expired_records now q Hnd) as (-> & -> & ->).
    rewrite length_app, length_map.
    pose proof (filter_length_split (λ kv, is_expired now (snd kv)) (pending_messages q)).
    lia.
  - intros id m Hm. unfold get_from_queue in Hm. unfold approve_message, reject_message.
    rewrite Hm. apply Ha in Hm. simpl. rewrite !length_app. simpl.
    split_and!; try lia. intros reason. rewrite length_app. simpl. split; lia.
Qed.

Lemma decisions_conserve_records_witness :
  stat_pending (get_statistics 5 (fst (approve_message "deadbeef" 5 sample_queue))) = 0
  ∧ stat_approved (get_statistics 5 (fst (approve_message "deadbeef" 5 sample_queue))) = 1.
Proof.
  assert (Hnd : NoDup (PyDict.keys (pending_messages sample_queue))).
  { apply NoDup_cons. split; [apply not_elem_of_nil | apply NoDup_nil_2]. }
  destruct (decisions_conserve_records sample_queue 5 5 Hnd) as (_ & _ & _ & H).
  destruct (H "deadbeef" sample_message eq_refl) as (H1 & H2 & _).
  split; [exact H1 | exact H2].
Defined.

(** After the expiry sweep no pending record is expired at the time of the
    sweep, and a second sweep at that time moves nothing, returns 0 and
    writes nothing. *)
Theorem cleanup_twice (q : ModerationQueue) (now : Z) :
  NoDup (PyDict.keys (pending_messages q)) →
  let q' := fst (_cleanup_expired_messages now q) in
  (∀ k m, (k, m) ∈ pending_messages q' → is_expired now m = false)
  ∧ _cleanup_expired_messages now q' = (q', 0).
Proof.
  intros Hnd q'.
  destruct (cleanup_expired_records now q Hnd) as (Hp & _ & _). fold q' in Hp.
  assert (Hall : ∀ k m, (k, m) ∈ pending_messages q' → is_expired now m = false).
  { intros k m. rewrite Hp. intros Hin.
    apply list_elem_of_In, filter_In in Hin as [_ Hf]. by apply negb_true_iff in Hf. }
  split; [done|].
  unfold _cleanup_expired_messages, expired_ids.
  assert (Hnil : List.filter (λ kv, is_expired now (snd kv)) (pending_messages q') = []).
  { clear Hp. induction (pending_messages q') as [|[k m] l IH]; simpl; [done|].
    rewrite (Hall k m) by left. apply IH. intros k' m' Hin. apply (Hall k' m'). by right. }
  by rewrite Hnil.
Qed.

Lemma cleanup_twice_witness :
  _cleanup_expired_messages 86401 (fst (_cleanup_expired_messages 86401 sample_queue))
  = (fst (_cleanup_expired_messages 86401 sample_queue), 0).
Proof.
  assert (Hnd : NoDup (PyDict.keys (pending_messages sample_queue))).
  { apply NoDup_cons. split; [apply not_elem_of_nil | apply NoDup_nil_2]. }
  exact (proj2 (cleanup_twice sample_queue 86401 Hnd)).
Defined.

Lemma expire_ids_records now ids q1 q2 :
  pending_messages q1 = pending_messages q2 →
  approved_messages q1 = approved_messages q2 →
  rejected_messages q1 = rejected_messages q2 →
  pending_messages (expire_ids now ids q1) = pending_messages (expire_ids now ids q2)
  ∧ approved_messages (expire_ids now ids q1) = approved_messages (expire_ids now ids q2)
  ∧ rejected_messages (expire_ids now ids q1) = rejected_messages (expire_ids now ids q2).
Proof.
  revert q1 q2. induction ids as [|id ids IH]; intros q1 q2 Hp Ha Hr; simpl; [done|].
  rewrite Hp. destruct (PyDict.get id (pending_messages q2)); [|done].
  apply IH; simpl; congruence.
Qed.

Lemma cleanup_records now q1 q2 :
  pending_messages q1 = pending_messages q2 →
  approved_messages q1 = approved_messages q2 →
  rejected_messages q1 = rejected_messages q2 →
  pending_messages (fst (_cleanup_expired_messages now q1))
  = pending_messages (fst (_cleanup_expired_messages now q2))
  ∧ approved_messages (fst (_cleanup_expired_messages now q1))
    = approved_messages (fst (_cleanup_expired_messages now q2))
  ∧ rejected_messages (fst (_cleanup_expired_messages now q1))
    = rejected_messages (fst (_cleanup_expired_messages now q2))
  ∧ snd (_cleanup_expired_messages now q1) = snd (_cleanup_expired_messages now q2).
Proof.
  intros Hp Ha Hr. unfold _cleanup_expired_messages, expired_ids. rewrite Hp.
  set (ids := map fst _).
  destruct (expire_ids_records now ids q1 q2 Hp Ha Hr) as (H1 & H2 & H3).
  cbn [fst snd]. by destruct ids.
Qed.

Lemma load_saved_records now now' q memory :
  storage_file memory = storage_file (_save_data now q) →
  pending_messages (_load_from_file now' memory) = pending_messages q
  ∧ approved_messages (_load_from_file now' memory) = approved_messages q
  ∧ rejected_messages (_load_from_file now' memory) = rejected_messages q.
Proof.
  intros Hfile. unfold _load_from_file. rewrite Hfile.
  unfold _save_data, _save_to_file. cbn [storage_file set_storage_file].
  by rewrite validate_saved, load_records_saved.
Qed.

(** A queue object that loads the file a queue [q] has saved, whatever it
    holds in memory itself, ends with the records of [q] as the expiry sweep
    leaves them: nothing is lost on the way through the file but the records
    that have expired by the time of the load, and those are in the rejected
    archive. *)
Theorem reload_is_sweep (q memory : ModerationQueue) (now now' : Z) :
  storage_file memory = storage_file (_save_data now q) →
  let reloaded := _load_data now' memory in
  let swept := fst (_cleanup_expired_messages now' q) in
  pending_messages reloaded = pending_messages swept
  ∧ approved_messages reloaded = approved_messages swept
  ∧ rejected_messages reloaded = rejected_messages swept.
Proof.
  intros Hfile reloaded swept. unfold reloaded, swept, _load_data.
  destruct (load_saved_records now now' q memory Hfile) as (Hp & Ha & Hr).
  destruct (cleanup_records now' (_load_from_file now' memory) q Hp Ha Hr)
    as (H1 & H2 & H3 & _).
  done.
Qed.

Lemma reload_is_sweep_witness :
  map fst
    (pending_messages
       (_load_data 90000
          (set_storage_file (storage_file (_save_data 8 two_pending)) empty_queue)))
  = []
  ∧ length
      (rejected_messages
         (_load_data 90000
            (set_storage_file (storage_file (_save_data 8 two_pending)) empty_queue)))
    = 2%nat.
Proof.
  destruct (reload_is_sweep two_pending
              (set_storage_file (storage_file (_save_data 8 two_pending)) empty_queue)
              8 90000 eq_refl) as (Hp & _ & Hr).
  cbv zeta in Hp, Hr. rewrite Hp, Hr. split; vm_compute; reflexivity.
Defined.

(** Reduce the queue projections of a state written with the setters. *)
Ltac queue_fields :=
  cbn [pending_messages approved_messages rejected_messages storage_file
       backups default_timeout _save_data _save_to_file set_storage_file
       set_pending set_records set_backups fst snd].

Lemma saved_data_current now q :
  storage_file (_save_data now q) = Some (saved_data now q)
  ∧ load_records (saved_data now q)
    = Some (pending_messages (_save_data now q),
            approved_messages (_save_data now q),
            rejected_messages (_save_data now q)).
Proof. split; [done|]. exact (load_records_saved now q). Qed.

(** [add_to_queue] stores a new pending record under the id it returns: not
    locked, no reminders sent, created now, expiring after the given hours
    (after the queue's default when the hours are [None] or 0).  Records
    under other ids and both archives are as before, a new id goes to the
    end of the pending dictionary, and the file written holds the queue as
    it now is. *)
Theorem add_to_queue_effect (md : MessageData) (hours : option Z)
    (uuid_text : string) (now : Z) (q : ModerationQueue) :
  let id := snd (add_to_queue md hours uuid_text now q) in
  let q' := fst (add_to_queue md hours uuid_text now q) in
  (∃ m, get_from_queue id q' = Some m
        ∧ message_id m = id
        ∧ status m = "pending"
        ∧ timestamp m = now
        ∧ original_message m = md_original_message md
        ∧ ai_response m = md_ai_response md
        ∧ chat_id m = md_chat_id md
        ∧ user_id m = md_user_id md
        ∧ expires_at m
          = Some (now + match hours with
                        | Some h => if h =? 0 then default_timeout q else 3600 * h
                        | None => default_timeout q
                        end)
        ∧ editing_admin_id m = None
        ∧ admin_processing m = None
        ∧ reminder_count m = 0)
  ∧ (∀ id', id' ≠ id → get_from_queue id' q' = get_from_queue id' q)
  ∧ approved_messages q' = approved_messages q
  ∧ rejected_messages q' = rejected_messages q
  ∧ (get_from_queue id q = None →
       PyDict.keys (pending_messages q') = PyDict.keys (pending_messages q) ++ [id])
  ∧ ∃ data, storage_file q' = Some data
            ∧ load_records data
              = Some (pending_messages q', approved_messages q',
                      rejected_messages q').
Proof.
  intros id q'. unfold id, q', add_to_queue. cbn [fst snd].
  set (mid := String.substring 0 8 uuid_text).
  split_and!.
  - eexists. split; [apply get_after_grant|]. cbn. split_and!; try done.
    destruct hours as [h|]; [|done]. simpl. by destruct (h =? 0).
  - intros id' Hne. unfold get_from_queue. queue_fields. by apply pydict_get_set_ne.
  - done.
  - done.
  - intros Hnone. queue_fields. rewrite pydict_keys_set. unfold PyDict.mem.
    unfold get_from_queue in Hnone. by rewrite Hnone.
  - eexists. apply saved_data_current.
Qed.

Lemma add_to_queue_effect_witness :
  PyDict.keys (pending_messages
     (fst (add_to_queue other_data (Some 0) "cafebabe-0000-4000-8000-000000000002" 3
             sample_queue)))
  = ["deadbeef"; "cafebabe"].
Proof.
  destruct (add_to_queue_effect other_data (Some 0)
              "cafebabe-0000-4000-8000-000000000002" 3 sample_queue)
    as (_ & _ & _ & _ & H & _).
  exact (H eq_refl).
Defined.

(** [extend_timeout] answers [False] and changes nothing for an id that is
    not pending or a record without expiry time.  Otherwise it moves the
    expiry time of that record by the given hours and of no other, and the
    record then stays pending through every sweep up to the new expiry
    time. *)
Theorem extend_timeout_effect (id : string) (hours now : Z) (q : ModerationQueue) :
  (get_from_queue id q = None → extend_timeout id hours now q = (q, false))
  ∧ (∀ m, get_from_queue id q = Some m → expires_at m = None →
       extend_timeout id hours now q = (q, false))
  ∧ (∀ m e, get_from_queue id q = Some m → expires_at m = Some e →
       let q' := fst (extend_timeout id hours now q) in
       let m' := set_expires_at (Some (e + 3600 * hours)) m in
       snd (extend_timeout id hours now q) = true
       ∧ get_from_queue id q' = Some m'
       ∧ (∀ id', id' ≠ id → get_from_queue id' q' = get_from_queue id' q)
       ∧ approved_messages q' = approved_messages q
       ∧ rejected_messages q' = rejected_messages q
       ∧ (NoDup (PyDict.keys (pending_messages q)) →
          ∀ later, later ≤ e + 3600 * hours →
            get_from_queue id (fst (_cleanup_expired_messages later q')) = Some m')).
Proof.
  unfold extend_timeout, get_from_queue. split_and!.
  - by intros ->.
  - by intros m -> ->.
  - intros m e Hm He. rewrite Hm, He. cbn [fst snd]. split_and!; try done.
    + apply get_after_grant.
    + intros id' Hne. queue_fields. by apply pydict_get_set_ne.
    + intros Hnd later Hle.
      set (q' := _save_data now _).
      assert (Hnd' : NoDup (PyDict.keys (pending_messages q')))
        by by apply pydict_set_NoDup.
      destruct (cleanup_expired_records later q' Hnd') as (-> & _ & _).
      rewrite pydict_get_filter by done.
      unfold q'. queue_fields.
      rewrite pydict_get_set_eq. cbn [snd].
      assert (is_expired later (set_expires_at (Some (e + 3600 * hours)) m) = false) as ->;
        [|done].
      unfold is_expired. cbn. rewrite Z.gtb_ltb. apply Z.ltb_ge. lia.
Qed.

Lemma extend_timeout_effect_witness :
  snd (extend_timeout "deadbeef" 24 86000 sample_queue) = true
  ∧ get_from_queue "deadbeef"
      (fst (_cleanup_expired_messages 172800
              (fst (extend_timeout "deadbeef" 24 86000 sample_queue))))
    = Some (set_expires_at (Some 172800) sample_message).
Proof.
  destruct (extend_timeout_effect "deadbeef" 24 86000 sample_queue) as (_ & _ & H).
  destruct (H sample_message 86400 eq_refl eq_refl) as (H1 & _ & _ & _ & _ & H6).
  split; [exact H1|].
  assert (Hnd : NoDup (PyDict.keys (pending_messages sample_queue))).
  { apply NoDup_cons. split; [apply not_elem_of_nil | apply NoDup_nil_2]. }
  exact (H6 Hnd 172800 ltac:(lia)).
Defined.

(** [get_expiring_soon], asked for any number of hours from 0 up, lists
    every pending record the sweep would expire now; asking for more hours
    never lists fewer records; and [get_overdue_messages] lists no record
    created at or after the time of asking. *)
Theorem expiring_soon_covers_expired (hours now : Z) (q : ModerationQueue) :
  (0 ≤ hours → ∀ k m, (k, m) ∈ pending_messages q → is_expired now m = true →
     m ∈ get_expiring_soon hours now q)
  ∧ (∀ more m, hours ≤ more → m ∈ get_expiring_soon hours now q →
       m ∈ get_expiring_soon more now q)
  ∧ (0 ≤ hours → ∀ m, m ∈ get_overdue_messages hours now q → timestamp m < now).
Proof.
  unfold get_expiring_soon, get_overdue_messages, PyDict.values. split_and!.
  - intros Hh k m Hin Hexp. apply list_elem_of_In, filter_In. split.
    + apply list_elem_of_In, list_elem_of_fmap. by exists (k, m).
    + apply is_expired_iff in Hexp as (e & -> & He). apply Z.ltb_lt. lia.
  - intros more m Hle Hin. apply list_elem_of_In, filter_In in Hin as [Hin Hf].
    apply list_elem_of_In, filter_In. split; [done|].
    destruct (expires_at m); [|done]. apply Z.ltb_lt in Hf. apply Z.ltb_lt. lia.
  - intros Hh m Hin. apply list_elem_of_In, filter_In in Hin as [_ Hf].
    apply Z.ltb_lt in Hf. lia.
Qed.

Lemma expiring_soon_covers_expired_witness :
  sample_message ∈ get_expiring_soon 0 86401 sample_queue.
Proof.
  destruct (expiring_soon_covers_expired 0 86401 sample_queue) as (H & _).
  apply (H ltac:(lia) "deadbeef" sample_message); [left | reflexivity].
Defined.

(** ** Reading stored records and files *)

Lemma arg_str_get k data s : arg_str k data = Some s → PyDict.get k data = Some (JStr s).
Proof.
  unfold arg_str. destruct (PyDict.get k data) as [[]|]; try done. by intros [= ->].
Qed.

Lemma arg_num_get k data z : arg_num k data = Some z → PyDict.get k data = Some (JNum z).
Proof.
  unfold arg_num. destruct (PyDict.get k data) as [[]|]; try done. by intros [= ->].
Qed.

Lemma arg_datetime_get k data d :
  arg_datetime k data = Some d →
  ∃ s, PyDict.get k data = Some (JStr s) ∧ fromisoformat s = Some d.
Proof.
  unfold arg_datetime. destruct (PyDict.get k data) as [[]|]; try done. eauto.
Qed.

(** [from_dict] gives a record only for a dictionary that has every
    required key and no key that is not a field; the record then carries the
    identifying and text values as they are stored.  So a stored record with
    a required key missing, or with a key the dataclass does not know, makes
    [from_dict] fail. *)
Theorem from_dict_needs_required (data : PyDict.pydict json) (m : ModerationMessage) :
  from_dict data = Some m →
  (∀ k, k ∈ required_names → is_Some (PyDict.get k data))
  ∧ (∀ k, k ∈ PyDict.keys data → k ∈ field_names)
  ∧ PyDict.get "message_id" data = Some (JStr (message_id m))
  ∧ PyDict.get "chat_id" data = Some (JNum (chat_id m))
  ∧ PyDict.get "user_id" data = Some (JNum (user_id m))
  ∧ PyDict.get "username" data = Some (JStr (username m))
  ∧ PyDict.get "original_message" data = Some (JStr (original_message m))
  ∧ PyDict.get "ai_response" data = Some (JStr (ai_response m))
  ∧ ∃ s, PyDict.get "timestamp" data = Some (JStr s)
         ∧ fromisoformat s = Some (timestamp m).
Proof.
  unfold from_dict. intros H.
  repeat (apply bind_Some in H as (? & ? & H)).
  injection H as <-. cbn [message_id chat_id user_id username original_message
                           ai_response timestamp].
  repeat match goal with
  | H : arg_str _ _ = Some _ |- _ => apply arg_str_get in H
  | H : arg_num _ _ = Some _ |- _ => apply arg_num_get in H
  | H : arg_datetime _ _ = Some _ |- _ => apply arg_datetime_get in H as (? & ? & ?)
  end.
  match goal with
  | Hk : forallb known_field _ = true |- _ => pose proof Hk as Hknown
  end.
  split_and!; try done.
  - intros k Hk. unfold required_names in Hk.
    repeat (apply elem_of_cons in Hk as [->|Hk]; [eauto|]).
    by apply elem_of_nil in Hk.
  - intros k Hk. rewrite forallb_forall in Hknown.
    apply list_elem_of_In, Hknown in Hk. unfold known_field in Hk.
    apply existsb_exists in Hk as (name & Hname & ->%String.eqb_eq).
    by apply list_elem_of_In.
  - eauto.
Qed.

Lemma from_dict_needs_required_witness :
  PyDict.get "message_id" (to_dict sample_message) = Some (JStr "deadbeef").
Proof.
  destruct (from_dict_needs_required (to_dict sample_message) sample_message
              (from_dict_to_dict sample_message)) as (_ & _ & H & _).
  exact H.
Defined.

Lemma load_records_recover_data : load_records _recover_data = Some ([], [], []).
Proof. reflexivity. Qed.

(** Loading when the storage file does not exist, or holds data of the wrong
    top-level shape, starts from an empty queue; in the second case the
    backups are not consulted, whatever they hold. *)
Theorem load_without_usable_file (now : Z) (q : ModerationQueue) :
  (storage_file q = None →
     pending_messages (_load_from_file now q) = []
     ∧ approved_messages (_load_from_file now q) = []
     ∧ rejected_messages (_load_from_file now q) = []
     ∧ backups (_load_from_file now q) = backups q)
  ∧ (∀ data, storage_file q = Some data → _validate_data_integrity data = false →
       pending_messages (_load_from_file now q) = []
       ∧ approved_messages (_load_from_file now q) = []
       ∧ rejected_messages (_load_from_file now q) = []).
Proof.
  unfold _load_from_file. split.
  - by intros ->.
  - intros data -> ->. by rewrite load_records_recover_data.
Qed.

Lemma load_without_usable_file_witness :
  pending_messages
    (_load_from_file 9
       (mkQueue [("deadbeef", sample_message)] [] [] 86400 (Some (JArr []))
          [(5, saved_data 5 sample_queue)]))
  = [].
Proof.
  destruct (load_without_usable_file 9
              (mkQueue [("deadbeef", sample_message)] [] [] 86400 (Some (JArr []))
                 [(5, saved_data 5 sample_queue)])) as [_ H].
  destruct (H (JArr []) eq_refl eq_refl) as (H1 & _).
  exact H1.
Defined.

Lemma put_backup_newest now content bs :
  Forall (λ b, fst b < now) bs → put_backup now content bs = bs ++ [(now, content)].
Proof.
  induction bs as [|[s c] bs IH]; simpl; [done|].
  intros [Hs Hbs]%Forall_cons. simpl in Hs.
  destruct (Z.ltb_spec now s); [lia|]. destruct (Z.eqb_spec now s); [lia|].
  by rewrite IH.
Qed.

Lemma candidates_after_backup now content older (latest : list (Z * json)) :
  Forall (λ b, fst b < now) (older ++ latest) →
  (length latest ≤ 4)%nat →
  let bs := put_backup now content (older ++ latest) in
  ∃ rest, reverse (drop (length bs - 5) bs)
          = (now, content) :: reverse latest ++ rest.
Proof.
  intros Hall Hlen bs. unfold bs. rewrite put_backup_newest by done.
  rewrite <- app_assoc, !length_app. cbn [length].
  rewrite drop_app_le by lia.
  rewrite !reverse_app, reverse_singleton. simpl. eauto.
Qed.

(** Loading a file whose shape is right but one of whose records cannot be
    read falls back on the backups.  [_create_backup] has by then copied the
    unreadable file itself as the newest backup, and the recovery tries the
    three newest: so when the newest earlier backup is a saved snapshot, the
    queue is restored from it, and when the two newest earlier backups are
    of the wrong shape, the queue starts empty whatever older backups
    hold. *)
Theorem load_recovers_from_backup (now : Z) (q : ModerationQueue) (data : json) :
  storage_file q = Some data →
  _validate_data_integrity data = true →
  load_records data = None →
  Forall (λ b, fst b < now) (backups q) →
  (∀ older stamp saved_at q0,
     backups q = older ++ [(stamp, saved_data saved_at q0)] →
     pending_messages (_load_from_file now q) = pending_messages q0
     ∧ approved_messages (_load_from_file now q) = approved_messages q0
     ∧ rejected_messages (_load_from_file now q) = rejected_messages q0)
  ∧ (∀ older b1 b2,
       backups q = older ++ [b1; b2] →
       _validate_data_integrity (snd b1) = false →
       _validate_data_integrity (snd b2) = false →
       pending_messages (_load_from_file now q) = []
       ∧ approved_messages (_load_from_file now q) = []
       ∧ rejected_messages (_load_from_file now q) = []).
Proof.
  intros Hfile Hvalid Hload Hall.
  unfold _load_from_file. rewrite Hfile, Hvalid, Hload.
  unfold _attempt_recovery_from_backup, _create_backup. rewrite Hfile.
  cbn [backups set_backups]. split.
  - intros older stamp saved_at q0 Hb. rewrite Hb in Hall |- *.
    destruct (candidates_after_backup now data older
                [(stamp, saved_data saved_at q0)] Hall) as [rest ->]; [simpl; lia|].
    cbn [reverse rev_append app take firstn recover_from].
    rewrite Hvalid, Hload, validate_saved, load_records_saved. done.
  - intros older [s1 c1] [s2 c2] Hb H1 H2. simpl in H1, H2. rewrite Hb in Hall |- *.
    destruct (candidates_after_backup now data older [(s1, c1); (s2, c2)] Hall)
      as [rest ->]; [simpl; lia|].
    cbn [reverse rev_append app take firstn recover_from].
    by rewrite Hvalid, Hload, H1, H2.
Qed.

Lemma load_recovers_from_backup_witness :
  pending_messages
    (_load_from_file 9
       (mkQueue [] [] [] 86400
          (Some (JObj [("pending_messages", JObj [("deadbeef", JNull)]);
                       ("approved_messages", JArr []);
                       ("rejected_messages", JArr [])]))
          [(5, saved_data 5 sample_queue)]))
  = [("deadbeef", sample_message)].
Proof.
  assert (Hall : Forall (λ b : Z * json, fst b < 9) [(5, saved_data 5 sample_queue)]).
  { apply Forall_cons. split; [simpl; lia | apply Forall_nil_2]. }
  destruct (load_recovers_from_backup 9
    (mkQueue [] [] [] 86400
       (Some (JObj [("pending_messages", JObj [("deadbeef", JNull)]);
                    ("approved_messages", JArr []);
                    ("rejected_messages", JArr [])]))
       [(5, saved_data 5 sample_queue)])
    _ eq_refl eq_refl eq_refl Hall) as [H _].
  destruct (H [] 5 5 sample_queue eq_refl) as (H1 & _).
  exact H1.
Defined.

(** ** Further properties of the reminders *)

(** For a time in the queue that is not negative, [format_queue_time]
    prints whole hours and less than 60 whole minutes, and the two together
    fall short of the time by less than a minute. *)
Theorem format_queue_time_bounds (t : Z) :
  0 ≤ t →
  let (hours, minutes) := format_queue_time t in
  0 ≤ hours ∧ 0 ≤ minutes < 60
  ∧ 3600 * hours + 60 * minutes ≤ t < 3600 * hours + 60 * minutes + 60.
Proof.
  intros Ht. unfold format_queue_time.
  pose proof (Z.mod_pos_bound t 3600 ltac:(lia)) as Hm.
  rewrite !Z.quot_div_nonneg by lia.
  pose proof (Z.div_mod t 3600 ltac:(lia)) as Hd.
  pose proof (Z.div_mod (t mod 3600) 60 ltac:(lia)) as Hd'.
  pose proof (Z.mod_pos_bound (t mod 3600) 60 ltac:(lia)) as Hm'.
  pose proof (Z.div_pos t 3600 Ht ltac:(lia)).
  pose proof (Z.div_pos (t mod 3600) 60 ltac:(lia) ltac:(lia)).
  assert ((t mod 3600) / 60 < 60) by (apply Z.div_lt_upper_bound; lia).
  lia.
Qed.

Lemma format_queue_time_bounds_witness : format_queue_time 7384 = (2, 3).
Proof.
  pose proof (format_queue_time_bounds 7384 ltac:(lia)) as H.
  destruct (format_queue_time 7384) as [h m] eqn:E.
  revert E. vm_compute. intros [= <- <-]. reflexivity.
Defined.

Lemma waited_before_succ (c : Z) :
  0 ≤ c →
  waited_before (Z.to_nat (c + 1))
  = waited_before (Z.to_nat c) + schedule_get (c + 1) 3600 reminder_schedule.
Proof.
  intros Hc. replace (Z.to_nat (c + 1)) with (S (Z.to_nat c)) by lia.
  cbn [waited_before]. do 2 f_equal. lia.
Qed.

Lemma remind_one_waited now m :
  (0 ≤ reminder_count m
   ∧ match last_reminder_time m with
     | Some t => timestamp m + waited_before (Z.to_nat (reminder_count m)) ≤ t
     | None => reminder_count m = 0
     end) →
  timestamp (remind_one now m) = timestamp m
  ∧ 0 ≤ reminder_count (remind_one now m)
  ∧ match last_reminder_time (remind_one now m) with
    | Some t =>
        timestamp m + waited_before (Z.to_nat (reminder_count (remind_one now m))) ≤ t
    | None => reminder_count (remind_one now m) = 0
    end.
Proof.
  intros [Hc Hl]. unfold remind_one.
  destruct (should_send_reminder now m) eqn:E; [|done].
  apply should_send_reminder_iff in E as (_ & _ & Hdue).
  cbn [set_reminder timestamp reminder_count last_reminder_time].
  split; [done|]. split; [lia|]. rewrite waited_before_succ by done.
  destruct (last_reminder_time m) as [t|].
  - change (default (timestamp m) (Some t)) with t in Hdue. lia.
  - change (default (timestamp m) None) with (timestamp m) in Hdue.
    rewrite Hl in *. change (waited_before (Z.to_nat 0)) with 0. lia.
Qed.

(** The reminders of a record are spaced by the schedule, each interval
    counted from the reminder before: whatever the times of the passes, the
    first reminder of a record is sent no earlier than 1 hour after its
    creation, the second no earlier than 3 hours, the third 7 hours, the
    fourth 15 hours after it. *)
Theorem reminders_not_before (times : list Z) (msg : ModerationMessage) :
  reminder_count msg = 0 → last_reminder_time msg = None →
  (∀ k, reminder_count (fst (remind_over times msg)) = Z.of_nat (S k) →
     ∃ t, last_reminder_time (fst (remind_over times msg)) = Some t
          ∧ timestamp msg + waited_before (S k) ≤ t)
  ∧ waited_before 1 = 3600 ∧ waited_before 2 = 10800
  ∧ waited_before 3 = 25200 ∧ waited_before 4 = 54000.
Proof.
  intros Hc Hl. split; [|done].
  assert (Hinv : ∀ times m,
    (0 ≤ reminder_count m
     ∧ match last_reminder_time m with
       | Some t => timestamp m + waited_before (Z.to_nat (reminder_count m)) ≤ t
       | None => reminder_count m = 0
       end) →
    timestamp (fst (remind_over times m)) = timestamp m
    ∧ 0 ≤ reminder_count (fst (remind_over times m))
    ∧ match last_reminder_time (fst (remind_over times m)) with
      | Some t =>
          timestamp m
          + waited_before (Z.to_nat (reminder_count (fst (remind_over times m)))) ≤ t
      | None => reminder_count (fst (remind_over times m)) = 0
      end).
  { clear. induction times as [|now times IH]; intros m Hm; [done|].
    cbn [remind_over].
    destruct (remind_one_waited now m Hm) as (Ht & Hc' & Hl').
    rewrite <- Ht in Hl'. specialize (IH (remind_one now m) (conj Hc' Hl')).
    destruct (remind_over times (remind_one now m)) as [m' n]. cbn [fst] in *.
    by rewrite Ht in IH. }
  destruct (Hinv times msg) as (_ & _ & H); [by rewrite Hc, Hl|].
  intros k Hk. rewrite Hk in H.
  destruct (last_reminder_time (fst (remind_over times msg))) as [t|]; [|lia].
  exists t. split; [done|]. by rewrite Nat2Z.id in H.
Qed.

Lemma reminders_not_before_witness :
  ∃ t, last_reminder_time (fst (remind_over [3600; 7200; 10800] sample_message)) = Some t
       ∧ 10800 ≤ t.
Proof.
  destruct (reminders_not_before [3600; 7200; 10800] sample_message eq_refl eq_refl)
    as [H _].
  destruct (H 1%nat ltac:(vm_compute; reflexivity)) as (t & Ht & Hle).
  exists t. split; [exact Ht|]. exact Hle.
Defined.

Lemma remind_all_count admins reachable disabled now items :
  0 ≤ snd (remind_all admins reachable disabled now items)
  ∧ (snd (fst (remind_all admins reachable disabled now items)) = [] →
     snd (remind_all admins reachable disabled now items) = 0).
Proof.
  induction items as [|[k m] items IH]; [done|]. simpl.
  destruct (remind_all admins reachable disabled now items) as [[rest' ds] c].
  simpl in IH. destruct IH as [Hc Hnil].
  destruct (should_send_reminder now m); simpl; [|done].
  destruct (List.filter reachable _) as [|a sent] eqn:E; simpl.
  - done.
  - split; [lia | done].
Qed.

(** A pass of [_send_reminders] changes nothing of a pending record but its
    reminder count and the time of its last reminder: ids, order, status,
    texts, expiry and lock fields are as before, and so are the archives.
    The file is written when a reminder has reached some reviewer; when none
    has, the file is left as it is, though the counters in memory have
    moved. *)
Theorem send_reminders_frame (admins : list Z) (reachable : Z → bool)
    (disabled : gset Z) (now : Z) (q : ModerationQueue) :
  let q' := fst (_send_reminders admins reachable disabled now q) in
  let deliveries := snd (_send_reminders admins reachable disabled now q) in
  pending_messages q'
  = map (λ kv, (fst kv, remind_one now (snd kv))) (pending_messages q)
  ∧ approved_messages q' = approved_messages q
  ∧ rejected_messages q' = rejected_messages q
  ∧ (∀ m, status (remind_one now m) = status m
          ∧ message_id (remind_one now m) = message_id m
          ∧ original_message (remind_one now m) = original_message m
          ∧ ai_response (remind_one now m) = ai_response m
          ∧ expires_at (remind_one now m) = expires_at m
          ∧ editing_admin_id (remind_one now m) = editing_admin_id m
          ∧ admin_processing (remind_one now m) = admin_processing m)
  ∧ (deliveries = [] → storage_file q' = storage_file q).
Proof.
  intros q' deliveries. unfold q', deliveries, _send_reminders.
  pose proof (remind_all_records admins reachable disabled now (pending_messages q)) as Hr.
  pose proof (remind_all_count admins reachable disabled now (pending_messages q)) as [Hc Hn].
  destruct (remind_all admins reachable disabled now (pending_messages q))
    as [[p ds] c]. cbn [fst snd] in *.
  split_and!.
  - rewrite <- Hr. by destruct (0 <? c).
  - by destruct (0 <? c).
  - by destruct (0 <? c).
  - intros m. unfold remind_one. by destruct (should_send_reminder now m).
  - intros Hnil. rewrite (Hn Hnil). done.
Qed.

Lemma send_reminders_frame_witness :
  storage_file (fst (_send_reminders [7; 8] (λ _, false) ∅ 3600 sample_queue))
  = storage_file sample_queue
  ∧ (reminder_count <$> get_from_queue "deadbeef"
       (fst (_send_reminders [7; 8] (λ _, false) ∅ 3600 sample_queue))) = Some 1.
Proof.
  destruct (send_reminders_frame [7; 8] (λ _, false) ∅ 3600 sample_queue)
    as (Hp & _ & _ & _ & Hs).
  split.
  - apply Hs. vm_compute. reflexivity.
  - unfold get_from_queue. rewrite Hp. vm_compute. reflexivity.
Defined.

(** ** Buttons and texts *)



(** The characters of a text, front to back. *)
Lemma escape_markdown_v2_app (s1 s2 : string) :
  escape_markdown_v2 (s1 ++ s2)%string
  = (escape_markdown_v2 s1 ++ escape_markdown_v2 s2)%string.
Proof.
  induction s1 as [|c s1 IH]; simpl; [done|].
  destruct (is_escape_char c); simpl; by rewrite IH.
Qed.







(** ** Further properties of the editing lock *)





(** ** Decisions by button *)







